(** * TDDCinema: subscription pricing ([tddcinema/abonnement.py])

    A shallow embedding of the [Abonnement] value object, of its two tariff
    tables and of the part of Python's [decimal] and [datetime] modules it
    relies on, followed by the properties of the pricing rules. *)

From Stdlib Require Import ZArith Lia Bool Ascii String DecimalString.
From stdpp Require Import base decidable countable gmap.

Local Open Scope Z_scope.

(** ** Exceptions

    Every failure of the module is a Python [ValueError] carrying a
    human-readable message. *)

Inductive exn : Type :=
| ValueError (msg : string).

Inductive result (A : Type) : Type :=
| Ok (x : A)
| Raise (e : exn).

Arguments Ok {A} x.
Arguments Raise {A} e.

Definition bind {A B : Type} (r : result A) (k : A -> result B) : result B :=
  match r with
  | Ok x => k x
  | Raise e => Raise e
  end.

Notation "'let?' x ':=' r 'in' k" := (bind r (fun x => k))
  (at level 10, x name, r at level 100, k at level 200).

Definition succeeds {A : Type} (r : result A) : Prop := exists x, r = Ok x.
Definition fails {A : Type} (r : result A) : Prop := exists msg, r = Raise (ValueError msg).

(** Python [str] values are kept as their UTF-8 bytes. *)

(** [str(n)] for a Python [int]. *)
Definition str_int (n : Z) : string := NilZero.string_of_int (Z.to_int n).

(** ["0" * n] *)
Fixpoint zeros (n : nat) : string :=
  match n with
  | O => EmptyString
  | S n' => String "0" (zeros n')
  end.

(** ["%0<width>d" % n]: zero padding to [width] characters, sign included. *)
Definition format_0d (width : nat) (n : Z) : string :=
  let digits := NilZero.string_of_uint (N.to_uint (Z.abs_N n)) in
  if n <? 0 then
    String "-" (zeros (Nat.pred width - String.length digits)%nat ++ digits)%string
  else (zeros (width - String.length digits)%nat ++ digits)%string.

(** ["%+d" % n] *)
Definition format_plus_d (n : Z) : string :=
  String (if n <? 0 then "-"%char else "+"%char)
    (NilZero.string_of_uint (N.to_uint (Z.abs_N n))).

Definition msg_day : string := "Le jour de début doit être compris entre 1 et 31".
Definition msg_duration : string :=
  "Durée d'abonnement non prise en charge (1, 6 ou 12 mois)".
Definition msg_formula : string := "Formule incompatible avec la durée choisie".
Definition msg_family : string := "Composition familiale ou justificatif invalide".

(** ** Decimal numbers

    A finite [decimal.Decimal] is a coefficient and an exponent and denotes
    [coefficient * 10 ^ exponent].  The sign is carried by the coefficient
    (no amount of the module is negative, so a negative zero never arises).
    [Decimal("22.90")] is [dec 2290 (-2)], [Decimal("8")] is [dec 8 0]. *)

Module Decimal.

Record t : Type := dec { coefficient : Z; exponent : Z }.

#[export] Instance t_eq_dec : EqDecision t.
Proof. solve_decision. Defined.

(** The value of [x] counted in units of [10 ^ e]; exact when
    [e <= exponent x]. *)
Definition units (e : Z) (x : t) : Z := coefficient x * 10 ^ (exponent x - e).

(** The value of [x] in hundredths; exact when [-2 <= exponent x]. *)
Definition cents (x : t) : Z := units (-2) x.

(** [x + y]: both operands are brought to the smaller exponent. *)
Definition add (x y : t) : t :=
  let e := Z.min (exponent x) (exponent y) in
  dec (units e x + units e y) e.

(** [x * n] for a Python [int] [n], converted to [Decimal(n)], exponent 0. *)
Definition mul_int (x : t) (n : Z) : t :=
  dec (coefficient x * n) (exponent x + 0).

(** [x.quantize(Decimal("0.01"), rounding=ROUND_HALF_UP)]: the result has
    exponent [-2]; dropped digits are rounded to nearest, ties away from
    zero. *)
Definition quantize_cents (x : t) : t :=
  let k := (-2) - exponent x in
  if k <=? 0 then dec (coefficient x * 10 ^ (- k)) (-2)
  else
    let p := 10 ^ k in
    let q := Z.abs (coefficient x) / p in
    let r := Z.abs (coefficient x) mod p in
    dec (Z.sgn (coefficient x) * (if p <=? 2 * r then q + 1 else q)) (-2).

(** Python's [==] on decimals compares values, not representations. *)
Definition eqb (x y : t) : bool :=
  let e := Z.min (exponent x) (exponent y) in
  units e x =? units e y.

(** [str(x)], which is also what an f-string field without format
    specifier prints: plain notation when the exponent is at most 0 and the
    number is not smaller than 1e-6, scientific notation otherwise. *)
Definition to_string (x : t) : string :=
  let sign := if coefficient x <? 0 then "-"%string else EmptyString in
  let int_ := NilZero.string_of_uint (N.to_uint (Z.abs_N (coefficient x))) in
  let len := Z.of_nat (String.length int_) in
  let leftdigits := exponent x + len in
  let dotplace :=
    if (exponent x <=? 0) && (-6 <? leftdigits) then leftdigits else 1 in
  let intpart :=
    if dotplace <=? 0 then "0"%string
    else if len <=? dotplace then (int_ ++ zeros (Z.to_nat (dotplace - len)))%string
    else substring 0 (Z.to_nat dotplace) int_ in
  let fracpart :=
    if dotplace <=? 0 then String "." (zeros (Z.to_nat (- dotplace)) ++ int_)%string
    else if len <=? dotplace then EmptyString
    else String "." (substring (Z.to_nat dotplace) (Z.to_nat (len - dotplace)) int_) in
  let exp :=
    if leftdigits =? dotplace then EmptyString
    else String "E" (format_plus_d (leftdigits - dotplace)) in
  (sign ++ intpart ++ fracpart ++ exp)%string.

(** The number of digits of the coefficient stays within the default
    context precision (28 digits), below which no operation rounds. *)
Definition in_context (x : t) : Prop := Z.abs (coefficient x) < 10 ^ 28.

End Decimal.

Abbreviation Decimal := Decimal.t.
Abbreviation dec := Decimal.dec.

(** ** Formulas and tariff plans *)

Inductive Formula : Type :=
| ILLIMITE_26_PLUS
| ILLIMITE_26_MINUS
| ILLIMITE_2_PERS
| FAMILLE
| ILLIMITE_WEEKEND
| ILLIMITE_SEMAINE
| ILLIMITE_3D
| CINE_PLUS_CANAL
| CINE_DAY.

#[export] Instance Formula_eq_dec : EqDecision Formula.
Proof. solve_decision. Defined.

Definition Formula_index (f : Formula) : positive :=
  match f with
  | ILLIMITE_26_PLUS => 1
  | ILLIMITE_26_MINUS => 2
  | ILLIMITE_2_PERS => 3
  | FAMILLE => 4
  | ILLIMITE_WEEKEND => 5
  | ILLIMITE_SEMAINE => 6
  | ILLIMITE_3D => 7
  | CINE_PLUS_CANAL => 8
  | CINE_DAY => 9
  end%positive.

Definition Formula_of_index (p : positive) : option Formula :=
  match p with
  | 1 => Some ILLIMITE_26_PLUS
  | 2 => Some ILLIMITE_26_MINUS
  | 3 => Some ILLIMITE_2_PERS
  | 4 => Some FAMILLE
  | 5 => Some ILLIMITE_WEEKEND
  | 6 => Some ILLIMITE_SEMAINE
  | 7 => Some ILLIMITE_3D
  | 8 => Some CINE_PLUS_CANAL
  | 9 => Some CINE_DAY
  | _ => None
  end%positive.

#[export] Instance Formula_countable : Countable Formula :=
  {| encode := Formula_index;
     decode := Formula_of_index;
     decode_encode := fun f =>
       match f return Formula_of_index (Formula_index f) = Some f with
       | ILLIMITE_26_PLUS | ILLIMITE_26_MINUS | ILLIMITE_2_PERS | FAMILLE
       | ILLIMITE_WEEKEND | ILLIMITE_SEMAINE | ILLIMITE_3D | CINE_PLUS_CANAL
       | CINE_DAY => eq_refl
       end |}.

(** [formula.value]: the label of each member of the enumeration. *)
Definition Formula_value (f : Formula) : string :=
  match f with
  | ILLIMITE_26_PLUS => "UGC Illimité 26+"
  | ILLIMITE_26_MINUS => "UGC Illimité -26"
  | ILLIMITE_2_PERS => "UGC Illimité 2 personnes"
  | FAMILLE => "UGC Illimité Famille"
  | ILLIMITE_WEEKEND => "UGC Illimité Week-end"
  | ILLIMITE_SEMAINE => "UGC Illimité Semaine"
  | ILLIMITE_3D => "UGC Illimité + 1er film 3D inclus"
  | CINE_PLUS_CANAL => "CINE+ / 1 Canal+"
  | CINE_DAY => "UGC Illimité CINE DAY"
  end.

Module TariffPlan.

Record t : Type := mk {
  monthly_fee : Decimal;
  first_payment_brackets : Decimal * Decimal * Decimal * Decimal
}.

(** [self.first_payment_brackets[i]] for the four indices the code uses. *)
Definition bracket (self : t) (i : nat) : Decimal :=
  let '(b0, b1, b2, b3) := first_payment_brackets self in
  match i with
  | 0%nat => b0
  | 1%nat => b1
  | 2%nat => b2
  | _ => b3
  end.

Definition first_payment_for_day (self : t) (start_day : Z) : result Decimal :=
  if negb ((1 <=? start_day) && (start_day <=? 31)) then Raise (ValueError msg_day)
  else if start_day <=? 8 then Ok (bracket self 0)
  else if start_day <=? 16 then Ok (bracket self 1)
  else if start_day <=? 22 then Ok (bracket self 2)
  else Ok (bracket self 3).

End TariffPlan.

Abbreviation TariffPlan := TariffPlan.t.

(** Tarifs mensuels (tableau 1). *)
Definition TABLE_1 : gmap Formula TariffPlan :=
  list_to_map [
    (ILLIMITE_26_PLUS,
     TariffPlan.mk (dec 2290 (-2))
       (dec 4580 (-2), dec 3053 (-2), dec 3060 (-2), dec 2290 (-2)));
    (ILLIMITE_26_MINUS,
     TariffPlan.mk (dec 1790 (-2))
       (dec 3580 (-2), dec 2479 (-2), dec 2387 (-2), dec 1790 (-2)));
    (ILLIMITE_2_PERS,
     TariffPlan.mk (dec 3680 (-2))
       (dec 7360 (-2), dec 4932 (-2), dec 4926 (-2), dec 3680 (-2)));
    (FAMILLE,
     TariffPlan.mk (dec 3790 (-2))
       (dec 7580 (-2), dec 5059 (-2), dec 5056 (-2), dec 3790 (-2)));
    (ILLIMITE_WEEKEND,
     TariffPlan.mk (dec 1690 (-2))
       (dec 3380 (-2), dec 2243 (-2), dec 2253 (-2), dec 1690 (-2)));
    (ILLIMITE_SEMAINE,
     TariffPlan.mk (dec 1990 (-2))
       (dec 3980 (-2), dec 2746 (-2), dec 2653 (-2), dec 1990 (-2)))
  ].

(** Tarifs 6 ou 12 mois (tableau 2). *)
Definition TABLE_2 : gmap Formula TariffPlan :=
  list_to_map [
    (ILLIMITE_26_PLUS,
     TariffPlan.mk (dec 2290 (-2))
       (dec 2959 (-2), dec 2290 (-2), dec 2290 (-2), dec 2290 (-2)));
    (ILLIMITE_26_MINUS,
     TariffPlan.mk (dec 1790 (-2))
       (dec 2084 (-2), dec 1790 (-2), dec 1790 (-2), dec 1790 (-2)));
    (ILLIMITE_2_PERS,
     TariffPlan.mk (dec 3680 (-2))
       (dec 4293 (-2), dec 3680 (-2), dec 3680 (-2), dec 3680 (-2)));
    (FAMILLE,
     TariffPlan.mk (dec 3790 (-2))
       (dec 4424 (-2), dec 3790 (-2), dec 3790 (-2), dec 3790 (-2)));
    (ILLIMITE_3D,
     TariffPlan.mk (dec 3090 (-2))
       (dec 3090 (-2), dec 3090 (-2), dec 3090 (-2), dec 3090 (-2)));
    (CINE_PLUS_CANAL,
     TariffPlan.mk (dec 4490 (-2))
       (dec 4490 (-2), dec 4490 (-2), dec 4490 (-2), dec 4490 (-2)));
    (CINE_DAY,
     TariffPlan.mk (dec 8 0) (dec 8 0, dec 8 0, dec 8 0, dec 8 0))
  ].

(** ** Calendar dates

    [datetime.date(year, month, day)] of Python's standard library only
    builds dates of the proleptic Gregorian calendar, years 1 to 9999, and
    raises [ValueError] otherwise (the messages here abridge Python's). *)

Module Date.

Record t : Type := mk { year : Z; month : Z; day : Z }.

Definition is_leap (y : Z) : bool :=
  (y mod 4 =? 0) && (negb (y mod 100 =? 0) || (y mod 400 =? 0)).

Definition days_in_month (y m : Z) : Z :=
  if m =? 2 then (if is_leap y then 29 else 28)
  else if (m =? 4) || (m =? 6) || (m =? 9) || (m =? 11) then 30
  else 31.

Definition MINYEAR : Z := 1.
Definition MAXYEAR : Z := 9999.

Definition new (y m d : Z) : result t :=
  if negb ((MINYEAR <=? y) && (y <=? MAXYEAR)) then
    Raise (ValueError "year is out of range")
  else if negb ((1 <=? m) && (m <=? 12)) then
    Raise (ValueError "month must be in 1..12")
  else if negb ((1 <=? d) && (d <=? days_in_month y m)) then
    Raise (ValueError "day is out of range for month")
  else Ok (mk y m d).

(** [d.isoformat()], that is ["%04d-%02d-%02d" % (year, month, day)]. *)
Definition isoformat (d : t) : string :=
  (format_0d 4 (year d) ++ "-" ++ format_0d 2 (month d) ++ "-" ++ format_0d 2 (day d))%string.

End Date.

Abbreviation date := Date.t.

(** ** Subscriptions *)

Module Abonnement.

Record t : Type := mk {
  formula : Formula;
  duration_months : Z;
  start_date : date;
  adults : Z;
  children : Z;
  livret_presented : bool;
  _tariff : TariffPlan
}.

(** The method reads [self.formula] and [self.duration_months] only; it
    runs before [self._tariff] exists. *)
Definition _resolve_tariff (formula : Formula) (duration_months : Z)
  : result TariffPlan :=
  let? table :=
    if duration_months =? 1 then Ok TABLE_1
    else if (duration_months =? 6) || (duration_months =? 12) then Ok TABLE_2
    else Raise (ValueError msg_duration)
  in
  match table !! formula with
  | Some plan => Ok plan
  | None => Raise (ValueError msg_formula)
  end.

Definition validate_family (self : t) : bool :=
  if negb (bool_decide (formula self = FAMILLE)) then true
  else (adults self <=? 2) && (children self <=? 2) && livret_presented self.

Definition __init__ (formula : Formula) (duration_months : Z) (start_date : date)
    (adults children : Z) (livret_presented : bool) : result t :=
  let? tariff := _resolve_tariff formula duration_months in
  let self := mk formula duration_months start_date adults children
                 livret_presented tariff in
  if bool_decide (formula = FAMILLE) && negb (validate_family self) then
    Raise (ValueError msg_family)
  else Ok self.

(** Constructor call with the default arguments
    [adults=1, children=0, livret_presented=False]. *)
Definition create (formula : Formula) (duration_months : Z) (start_date : date)
  : result t :=
  __init__ formula duration_months start_date 1 0 false.

Definition monthly_fee (self : t) : Decimal :=
  TariffPlan.monthly_fee (_tariff self).

Definition first_payment (self : t) : result Decimal :=
  let? payment :=
    TariffPlan.first_payment_for_day (_tariff self) (Date.day (start_date self)) in
  Ok (Decimal.quantize_cents payment).

Definition total_cost (self : t) : result Decimal :=
  let remaining_months := Z.max (duration_months self - 1) 0 in
  let? fp := first_payment self in
  let total := Decimal.add fp (Decimal.mul_int (monthly_fee self) remaining_months) in
  Ok (Decimal.quantize_cents total).

(** The fields of the f-string are evaluated from left to right, so an
    exception of [first_payment] comes before [isoformat] is reached. *)
Definition __str__ (self : t) : result string :=
  let label := Formula_value (formula self) in
  let duration := str_int (duration_months self) in
  let fee := Decimal.to_string (monthly_fee self) in
  let? fp := first_payment self in
  Ok ("Formule: " ++ label ++ " | Durée: " ++ duration ++ " mois | "
      ++ "Mensualité: " ++ fee ++ "€ | 1er paiement: " ++ Decimal.to_string fp
      ++ "€ | " ++ "Début: " ++ Date.isoformat (start_date self))%string.

(** The read-only interface as calls on an instance: each call returns
    the instance as the method leaves it, and what the method returns or
    raises.  No method of the class assigns to an attribute of [self].
    ([__str__] formats what [monthly_fee] and [first_payment] return and is
    left out.) *)
Inductive call : Type :=
| get_monthly_fee
| get_first_payment
| get_total_cost
| call_validate_family.

Inductive value : Type :=
| VDecimal (d : Decimal)
| VBool (b : bool).

Definition invoke (c : call) (self : t) : t * result value :=
  match c with
  | get_monthly_fee => (self, Ok (VDecimal (monthly_fee self)))
  | get_first_payment =>
      (self, let? d := first_payment self in Ok (VDecimal d))
  | get_total_cost =>
      (self, let? d := total_cost self in Ok (VDecimal d))
  | call_validate_family => (self, Ok (VBool (validate_family self)))
  end.

(** A sequence of calls on one instance, with the list of their outcomes. *)
Fixpoint invoke_all (cs : list call) (self : t) : t * list (result value) :=
  match cs with
  | [] => (self, [])
  | c :: cs' =>
      let '(self1, r) := invoke c self in
      let '(self2, rs) := invoke_all cs' self1 in
      (self2, r :: rs)
  end.

End Abonnement.

Abbreviation Abonnement := Abonnement.t.

(** ** Brackets and printed amounts *)

(** The index of the bracket that [first_payment_for_day] returns for a
    day of 1..31, by the same comparisons. *)
Definition bracket_of_day (start_day : Z) : nat :=
  if start_day <=? 8 then 0
  else if start_day <=? 16 then 1
  else if start_day <=? 22 then 2
  else 3.

(** The number of characters after the first point of a printed number,
    when it has a point. *)
Fixpoint fraction_digits (s : string) : option nat :=
  match s with
  | EmptyString => None
  | String c s' => if Ascii.eqb c "." then Some (String.length s') else fraction_digits s'
  end.

(** ** Shape of the stored amounts *)

(** An amount of a table: non-negative, below 100.00, written with two
    decimals or as a whole number. *)
Definition table_amount (x : Decimal) : Prop :=
  (Decimal.exponent x = -2 \/ Decimal.exponent x = 0) /\
  0 <= Decimal.cents x < 10000.

Definition table_plan (tp : TariffPlan) : Prop :=
  table_amount (TariffPlan.monthly_fee tp) /\
  forall i : nat, table_amount (TariffPlan.bracket tp i).

(** * Properties *)

(** At a literal duration the table test of [_resolve_tariff] evaluates and
    leaves the lookup. *)
Ltac resolve_at_duration :=
  unfold Abonnement._resolve_tariff; cbn [Z.eqb Pos.eqb orb bind];
  match goal with
  | |- context [?t !! ?f] =>
      destruct (t !! f); split; intros ?; try discriminate; congruence
  end.

(** A plan found in a table, taken formula by formula. *)
Ltac table_cases f H :=
  destruct f; vm_compute in H; try discriminate; injection H as <-.

(** A plan of a table and one of the four bracket indices, case by case. *)
Ltac plan_cases f Htp i Hi :=
  table_cases f Htp;
  (destruct i as [|[|[|[|i]]]]; [| | | |exfalso; cbn in Hi; lia]).

(** ** Inversion of the constructor *)

Lemma resolve_tariff_inv (f : Formula) (d : Z) (tp : TariffPlan) :
  Abonnement._resolve_tariff f d = Ok tp ->
  (d = 1 /\ TABLE_1 !! f = Some tp) \/ ((d = 6 \/ d = 12) /\ TABLE_2 !! f = Some tp).
Proof.
  unfold Abonnement._resolve_tariff.
  destruct (d =? 1) eqn:E1; cbn [bind].
  - apply Z.eqb_eq in E1. destruct (TABLE_1 !! f) eqn:L; [|discriminate].
    intros [= ->]. left. split; [exact E1 | reflexivity].
  - destruct ((d =? 6) || (d =? 12)) eqn:E2; cbn [bind]; [|discriminate].
    apply orb_true_iff in E2. rewrite !Z.eqb_eq in E2.
    destruct (TABLE_2 !! f) eqn:L; [|discriminate].
    intros [= ->]. right. split; [exact E2 | reflexivity].
Qed.

Lemma init_inv (f : Formula) (d : Z) (sd : date) (ad ch : Z) (lp : bool) (a : Abonnement) :
  Abonnement.__init__ f d sd ad ch lp = Ok a ->
  exists tp,
    Abonnement._resolve_tariff f d = Ok tp /\
    a = Abonnement.mk f d sd ad ch lp tp /\
    (f = FAMILLE -> ad <= 2 /\ ch <= 2 /\ lp = true).
Proof.
  unfold Abonnement.__init__.
  destruct (Abonnement._resolve_tariff f d) as [tp|e] eqn:R; cbn [bind]; [|discriminate].
  unfold Abonnement.validate_family; cbn [Abonnement.formula Abonnement.adults
    Abonnement.children Abonnement.livret_presented].
  destruct (bool_decide (f = FAMILLE)) eqn:F; cbn [negb andb].
  - destruct ((ad <=? 2) && (ch <=? 2) && lp) eqn:V; cbn [negb]; [|discriminate].
    intros [= <-]. exists tp. split; [reflexivity|]. split; [reflexivity|].
    intros _. apply andb_true_iff in V as [V ->]. apply andb_true_iff in V as [V1 V2].
    apply Z.leb_le in V1, V2. auto.
  - intros [= <-]. exists tp. split; [reflexivity|]. split; [reflexivity|].
    intros ->. apply bool_decide_eq_false in F. congruence.
Qed.

Lemma date_new_inv (y m d : Z) (sd : date) :
  Date.new y m d = Ok sd ->
  sd = Date.mk y m d /\ 1 <= d <= Date.days_in_month y m.
Proof.
  unfold Date.new.
  destruct (negb _); [discriminate|].
  destruct (negb _); [discriminate|].
  destruct ((1 <=? d) && (d <=? Date.days_in_month y m)) eqn:D; cbn [negb]; [|discriminate].
  intros [= <-]. split; [reflexivity|].
  apply andb_true_iff in D as [D1 D2]. apply Z.leb_le in D1, D2. lia.
Qed.

Lemma days_in_month_le_31 (y m : Z) : Date.days_in_month y m <= 31.
Proof.
  unfold Date.days_in_month.
  destruct (m =? 2); [destruct (Date.is_leap y); lia|].
  destruct (_ || _); lia.
Qed.

Lemma date_new_day_range (y m d : Z) (sd : date) :
  Date.new y m d = Ok sd -> 1 <= Date.day sd <= 31.
Proof.
  intros H. apply date_new_inv in H as [-> H]. cbn [Date.day].
  pose proof (days_in_month_le_31 y m). lia.
Qed.

(** ** Bracket selection *)

(** C1: for any tariff plan, a start day in 1..8 returns bracket 0, in 9..16
    bracket 1, in 17..22 bracket 2, in 23..31 bracket 3; any other integer
    raises the day-range [ValueError]. *)
Theorem first_payment_for_day_brackets (fee b0 b1 b2 b3 : Decimal) (start_day : Z) :
  let tp := TariffPlan.mk fee (b0, b1, b2, b3) in
  (1 <= start_day <= 8 -> TariffPlan.first_payment_for_day tp start_day = Ok b0) /\
  (9 <= start_day <= 16 -> TariffPlan.first_payment_for_day tp start_day = Ok b1) /\
  (17 <= start_day <= 22 -> TariffPlan.first_payment_for_day tp start_day = Ok b2) /\
  (23 <= start_day <= 31 -> TariffPlan.first_payment_for_day tp start_day = Ok b3) /\
  (start_day < 1 \/ 31 < start_day ->
   TariffPlan.first_payment_for_day tp start_day = Raise (ValueError msg_day)).
Proof.
  cbv zeta. unfold TariffPlan.first_payment_for_day, TariffPlan.bracket.
  cbn [TariffPlan.first_payment_brackets].
  destruct (1 <=? start_day) eqn:L1; destruct (start_day <=? 31) eqn:L31;
    destruct (start_day <=? 8) eqn:L8; destruct (start_day <=? 16) eqn:L16;
    destruct (start_day <=? 22) eqn:L22; cbn [negb andb];
    repeat match goal with
      | H : (_ <=? _) = true |- _ => apply Z.leb_le in H
      | H : (_ <=? _) = false |- _ => apply Z.leb_gt in H
      end;
    repeat split; intros; first [reflexivity | lia].
Qed.

Lemma first_payment_for_day_brackets_witness :
  let tp := TariffPlan.mk (dec 1690 (-2))
              (dec 3380 (-2), dec 2243 (-2), dec 2253 (-2), dec 1690 (-2)) in
  TariffPlan.first_payment_for_day tp 8 = Ok (dec 3380 (-2)) /\
  TariffPlan.first_payment_for_day tp 9 = Ok (dec 2243 (-2)) /\
  TariffPlan.first_payment_for_day tp 22 = Ok (dec 2253 (-2)) /\
  TariffPlan.first_payment_for_day tp 23 = Ok (dec 1690 (-2)) /\
  TariffPlan.first_payment_for_day tp 32 = Raise (ValueError msg_day) /\
  TariffPlan.first_payment_for_day tp 0 = Raise (ValueError msg_day).
Proof.
  cbv zeta.
  split; [apply (first_payment_for_day_brackets (dec 1690 (-2)) (dec 3380 (-2))
            (dec 2243 (-2)) (dec 2253 (-2)) (dec 1690 (-2)) 8); lia|].
  split; [apply (first_payment_for_day_brackets (dec 1690 (-2)) (dec 3380 (-2))
            (dec 2243 (-2)) (dec 2253 (-2)) (dec 1690 (-2)) 9); lia|].
  split; [apply (first_payment_for_day_brackets (dec 1690 (-2)) (dec 3380 (-2))
            (dec 2243 (-2)) (dec 2253 (-2)) (dec 1690 (-2)) 22); lia|].
  split; [apply (first_payment_for_day_brackets (dec 1690 (-2)) (dec 3380 (-2))
            (dec 2243 (-2)) (dec 2253 (-2)) (dec 1690 (-2)) 23); lia|].
  split; [apply (first_payment_for_day_brackets (dec 1690 (-2)) (dec 3380 (-2))
            (dec 2243 (-2)) (dec 2253 (-2)) (dec 1690 (-2)) 32); lia|].
  apply (first_payment_for_day_brackets (dec 1690 (-2)) (dec 3380 (-2))
            (dec 2243 (-2)) (dec 2253 (-2)) (dec 1690 (-2)) 0); lia.
Defined.

(** ** Tariff resolution *)

Lemma resolve_tariff_unsupported (f : Formula) (d : Z) :
  d <> 1 -> d <> 6 -> d <> 12 ->
  Abonnement._resolve_tariff f d = Raise (ValueError msg_duration).
Proof.
  intros H1 H6 H12. unfold Abonnement._resolve_tariff.
  apply Z.eqb_neq in H1, H6, H12. rewrite H1, H6, H12. reflexivity.
Qed.

Lemma init_resolve_raise (f : Formula) (d : Z) (sd : date) (ad ch : Z) (lp : bool) (e : exn) :
  Abonnement._resolve_tariff f d = Raise e ->
  Abonnement.__init__ f d sd ad ch lp = Raise e.
Proof. intros H. unfold Abonnement.__init__. rewrite H. reflexivity. Qed.

(** C3: duration 1 looks the formula up in [TABLE_1], durations 6 and 12 in
    [TABLE_2]; a subscription that was built holds the plan of that table;
    with any other duration the constructor raises the unsupported-duration
    [ValueError], whatever the formula and the other arguments. *)
Theorem duration_selects_table (f : Formula) :
  (forall tp, Abonnement._resolve_tariff f 1 = Ok tp <-> TABLE_1 !! f = Some tp) /\
  (forall tp, Abonnement._resolve_tariff f 6 = Ok tp <-> TABLE_2 !! f = Some tp) /\
  (forall tp, Abonnement._resolve_tariff f 12 = Ok tp <-> TABLE_2 !! f = Some tp) /\
  (forall d sd ad ch lp a,
     Abonnement.__init__ f d sd ad ch lp = Ok a ->
     (d = 1 /\ TABLE_1 !! f = Some (Abonnement._tariff a)) \/
     ((d = 6 \/ d = 12) /\ TABLE_2 !! f = Some (Abonnement._tariff a))) /\
  (forall d sd ad ch lp,
     d <> 1 -> d <> 6 -> d <> 12 ->
     Abonnement.__init__ f d sd ad ch lp = Raise (ValueError msg_duration)).
Proof.
  split; [|split; [|split; [|split]]].
  - intros tp. resolve_at_duration.
  - intros tp. resolve_at_duration.
  - intros tp. resolve_at_duration.
  - intros d sd ad ch lp a H.
    apply init_inv in H as (tp & Hr & -> & _). cbn [Abonnement._tariff].
    apply resolve_tariff_inv. exact Hr.
  - intros d sd ad ch lp H1 H6 H12.
    apply init_resolve_raise. apply resolve_tariff_unsupported; assumption.
Qed.

Lemma duration_selects_table_witness :
  Abonnement.__init__ ILLIMITE_WEEKEND 3 (Date.mk 2024 5 1) 1 0 false
  = Raise (ValueError msg_duration).
Proof.
  apply (duration_selects_table ILLIMITE_WEEKEND); lia.
Defined.

(** Which formulas each table offers. *)
Lemma TABLE_1_absent (f : Formula) :
  TABLE_1 !! f = None <-> f = ILLIMITE_3D \/ f = CINE_PLUS_CANAL \/ f = CINE_DAY.
Proof.
  destruct f; vm_compute; split; intros H; try discriminate; auto;
    destruct H as [H|[H|H]]; discriminate.
Qed.

Lemma TABLE_2_absent (f : Formula) :
  TABLE_2 !! f = None <-> f = ILLIMITE_WEEKEND \/ f = ILLIMITE_SEMAINE.
Proof.
  destruct f; vm_compute; split; intros H; try discriminate; auto;
    destruct H as [H|H]; discriminate.
Qed.

(** C4: the constructor raises the incompatible-formula [ValueError] when
    the formula is missing from the table of the duration; week-end and
    semaine are in [TABLE_1] only, 3D, CINE+ and CINE DAY in [TABLE_2] only;
    every other formula resolves under each of the durations 1, 6 and 12. *)
Theorem formula_absent_from_table (f : Formula) (d : Z) :
  d = 1 \/ d = 6 \/ d = 12 ->
  let table := if d =? 1 then TABLE_1 else TABLE_2 in
  let only_A := f = ILLIMITE_WEEKEND \/ f = ILLIMITE_SEMAINE in
  let only_B := f = ILLIMITE_3D \/ f = CINE_PLUS_CANAL \/ f = CINE_DAY in
  (table !! f = None ->
   forall sd ad ch lp,
     Abonnement.__init__ f d sd ad ch lp = Raise (ValueError msg_formula)) /\
  (only_A -> is_Some (TABLE_1 !! f) /\ TABLE_2 !! f = None) /\
  (only_B -> TABLE_1 !! f = None /\ is_Some (TABLE_2 !! f)) /\
  (table !! f = None <-> (only_A /\ (d = 6 \/ d = 12)) \/ (only_B /\ d = 1)) /\
  (~ (only_A /\ (d = 6 \/ d = 12)) -> ~ (only_B /\ d = 1) ->
   exists tp, Abonnement._resolve_tariff f d = Ok tp /\ table !! f = Some tp).
Proof.
  intros Hd table only_A only_B.
  assert (Hres : Abonnement._resolve_tariff f d =
                 match table !! f with
                 | Some plan => Ok plan
                 | None => Raise (ValueError msg_formula)
                 end).
  { subst table. destruct Hd as [->|[->| ->]]; reflexivity. }
  assert (Habs : table !! f = None <->
                 (only_A /\ (d = 6 \/ d = 12)) \/ (only_B /\ d = 1)).
  { subst table only_A only_B.
    destruct Hd as [->|[->| ->]]; cbn [Z.eqb Pos.eqb];
      rewrite ?TABLE_1_absent, ?TABLE_2_absent; intuition lia. }
  split; [|split; [|split; [|split]]].
  - intros Hnone sd ad ch lp. apply init_resolve_raise. rewrite Hres, Hnone. reflexivity.
  - subst only_A. intros [-> | ->]; split; vm_compute; eauto.
  - subst only_B. intros [-> | [-> | ->]]; split; vm_compute; eauto.
  - exact Habs.
  - intros HA HB. destruct (table !! f) as [tp|] eqn:L.
    + exists tp. rewrite Hres. split; reflexivity.
    + exfalso. destruct Habs as [Habs _]. specialize (Habs eq_refl). tauto.
Qed.

Lemma formula_absent_from_table_witness :
  Abonnement.__init__ ILLIMITE_WEEKEND 6 (Date.mk 2024 5 1) 1 0 false
  = Raise (ValueError msg_formula).
Proof.
  apply (formula_absent_from_table ILLIMITE_WEEKEND 6); [lia | reflexivity].
Defined.

(** ** Family validation *)

Lemma msg_family_not_resolution (f : Formula) (d : Z) :
  Abonnement._resolve_tariff f d <> Raise (ValueError msg_family).
Proof.
  unfold Abonnement._resolve_tariff.
  destruct (d =? 1); [|destruct ((d =? 6) || (d =? 12))]; cbn [bind];
    try discriminate;
    match goal with |- context [?t !! f] => destruct (t !! f); discriminate end.
Qed.

Lemma famille_resolves (d : Z) :
  d = 1 \/ d = 6 \/ d = 12 -> exists tp, Abonnement._resolve_tariff FAMILLE d = Ok tp.
Proof. intros [->|[->| ->]]; vm_compute; eauto. Qed.

(** C5, as the code has it: under a supported duration (1, 6 or 12) a
    Famille subscription is built exactly when there are at most 2 adults,
    at most 2 children and the livret was presented, and the constructor
    raises the family [ValueError] otherwise; under any duration a Famille
    household that breaks one of the three conditions is refused with a
    [ValueError]; for any other formula
    [validate_family] is true and the constructor returns what tariff
    resolution returns, so it never raises the family error, whatever the
    adults, the children and the livret flag. *)
Theorem family_validation_at_construction
    (d : Z) (sd : date) (ad ch : Z) (lp : bool) :
  (d = 1 \/ d = 6 \/ d = 12 ->
   (succeeds (Abonnement.__init__ FAMILLE d sd ad ch lp) <->
    ad <= 2 /\ ch <= 2 /\ lp = true) /\
   (~ (ad <= 2 /\ ch <= 2 /\ lp = true) ->
    Abonnement.__init__ FAMILLE d sd ad ch lp = Raise (ValueError msg_family))) /\
  (~ (ad <= 2 /\ ch <= 2 /\ lp = true) ->
   fails (Abonnement.__init__ FAMILLE d sd ad ch lp)) /\
  (forall f, f <> FAMILLE ->
   (forall tp, Abonnement.validate_family (Abonnement.mk f d sd ad ch lp tp) = true) /\
   Abonnement.__init__ f d sd ad ch lp =
     (let? tp := Abonnement._resolve_tariff f d in
      Ok (Abonnement.mk f d sd ad ch lp tp)) /\
   Abonnement.__init__ f d sd ad ch lp <> Raise (ValueError msg_family)).
Proof.
  split; [|split].
  - intros Hd. destruct (famille_resolves d Hd) as [tp Hr].
    assert (Hinit : Abonnement.__init__ FAMILLE d sd ad ch lp =
                    if (ad <=? 2) && (ch <=? 2) && lp
                    then Ok (Abonnement.mk FAMILLE d sd ad ch lp tp)
                    else Raise (ValueError msg_family)).
    { unfold Abonnement.__init__. rewrite Hr. cbn [bind].
      unfold Abonnement.validate_family.
      cbn [Abonnement.formula Abonnement.adults Abonnement.children
           Abonnement.livret_presented].
      rewrite (bool_decide_eq_true_2 (FAMILLE = FAMILLE) eq_refl). cbn [negb andb].
      destruct ((ad <=? 2) && (ch <=? 2) && lp); reflexivity. }
    assert (Hcond : (ad <=? 2) && (ch <=? 2) && lp = true <->
                    ad <= 2 /\ ch <= 2 /\ lp = true).
    { rewrite !andb_true_iff, !Z.leb_le. tauto. }
    rewrite Hinit. split.
    + rewrite <- Hcond. destruct ((ad <=? 2) && (ch <=? 2) && lp).
      * split; [reflexivity|]. intros _. eexists. reflexivity.
      * split; [intros [a Ha]; discriminate | discriminate].
    + rewrite <- Hcond. destruct ((ad <=? 2) && (ch <=? 2) && lp); [|reflexivity].
      intros H. exfalso. apply H. reflexivity.
  - intros Hn. destruct (Abonnement.__init__ FAMILLE d sd ad ch lp) as [a|[msg]] eqn:E.
    + exfalso. apply Hn. apply init_inv in E as (_ & _ & _ & Hfam). auto.
    + exists msg. reflexivity.
  - intros f Hf.
    assert (Hdec : bool_decide (f = FAMILLE) = false)
      by (apply bool_decide_eq_false; exact Hf).
    assert (Hinit : Abonnement.__init__ f d sd ad ch lp =
                    (let? tp := Abonnement._resolve_tariff f d in
                     Ok (Abonnement.mk f d sd ad ch lp tp))).
    { unfold Abonnement.__init__.
      destruct (Abonnement._resolve_tariff f d); cbn [bind]; [|reflexivity].
      rewrite Hdec. reflexivity. }
    split; [|split].
    + intros tp. unfold Abonnement.validate_family. cbn [Abonnement.formula].
      rewrite Hdec. reflexivity.
    + exact Hinit.
    + rewrite Hinit. pose proof (msg_family_not_resolution f d) as Hn.
      destruct (Abonnement._resolve_tariff f d); cbn [bind]; [discriminate|].
      intros [= ->]. apply Hn. reflexivity.
Qed.

Lemma family_validation_at_construction_witness :
  succeeds (Abonnement.__init__ FAMILLE 1 (Date.mk 2024 1 5) 2 2 true) /\
  Abonnement.__init__ FAMILLE 1 (Date.mk 2024 1 5) 3 2 false
  = Raise (ValueError msg_family).
Proof.
  split.
  - apply (family_validation_at_construction 1 (Date.mk 2024 1 5) 2 2 true);
      [lia | repeat split; lia].
  - apply (family_validation_at_construction 1 (Date.mk 2024 1 5) 3 2 false);
      [lia | lia].
Defined.

(** C5 without the condition on the duration: a Famille household of 2
    adults and 2 children with the livret is refused under duration 3, by
    the duration guard that runs before the family check. *)
Lemma family_validation_unsupported_duration :
  (2 <= 2 /\ 2 <= 2 /\ true = true) /\
  Abonnement.__init__ FAMILLE 3 (Date.mk 2024 1 5) 2 2 true
  = Raise (ValueError msg_duration).
Proof. split; [repeat split; lia | reflexivity]. Qed.

(** ** The accessors leave the instance alone *)

Lemma invoke_state (c : Abonnement.call) (a : Abonnement) :
  fst (Abonnement.invoke c a) = a.
Proof. destruct c; reflexivity. Qed.

Lemma invoke_all_state (cs : list Abonnement.call) (a : Abonnement) :
  fst (Abonnement.invoke_all cs a) = a.
Proof.
  revert a. induction cs as [|c cs IH]; intros a; [reflexivity|].
  cbn [Abonnement.invoke_all].
  pose proof (invoke_state c a) as Hc.
  destruct (Abonnement.invoke c a) as [a1 r]. cbn [fst] in Hc. subst a1.
  specialize (IH a). destruct (Abonnement.invoke_all cs a) as [a2 rs].
  exact IH.
Qed.

Lemma invoke_all_outcome (cs : list Abonnement.call) (a : Abonnement)
    (i : nat) (c : Abonnement.call) :
  cs !! i = Some c ->
  snd (Abonnement.invoke_all cs a) !! i = Some (snd (Abonnement.invoke c a)).
Proof.
  revert a i. induction cs as [|c0 cs IH]; intros a i; [discriminate|].
  cbn [Abonnement.invoke_all].
  pose proof (invoke_state c0 a) as Hc.
  destruct (Abonnement.invoke c0 a) as [a1 r] eqn:E. cbn [fst] in Hc. subst a1.
  specialize (IH a). destruct (Abonnement.invoke_all cs a) as [a2 rs].
  destruct i as [|i]; cbn.
  - intros [= <-]. rewrite E. reflexivity.
  - apply IH.
Qed.

(** C9: on a subscription that was built, [validate_family] is true, and it
    stays so: whatever accessors are called and in whatever order, the
    instance is unchanged and every call of [validate_family] returns true. *)
Theorem validate_family_stable
    (f : Formula) (d : Z) (sd : date) (ad ch : Z) (lp : bool) (a : Abonnement) :
  Abonnement.__init__ f d sd ad ch lp = Ok a ->
  Abonnement.validate_family a = true /\
  forall cs : list Abonnement.call,
    fst (Abonnement.invoke_all cs a) = a /\
    Abonnement.validate_family (fst (Abonnement.invoke_all cs a)) = true /\
    forall i : nat,
      cs !! i = Some Abonnement.call_validate_family ->
      snd (Abonnement.invoke_all cs a) !! i = Some (Ok (Abonnement.VBool true)).
Proof.
  intros H. apply init_inv in H as (tp & _ & -> & Hfam).
  assert (Hv : Abonnement.validate_family (Abonnement.mk f d sd ad ch lp tp) = true).
  { unfold Abonnement.validate_family.
    cbn [Abonnement.formula Abonnement.adults Abonnement.children
         Abonnement.livret_presented].
    destruct (bool_decide (f = FAMILLE)) eqn:F; cbn [negb]; [|reflexivity].
    apply bool_decide_eq_true in F. destruct (Hfam F) as (Ha & Hc & ->).
    apply Z.leb_le in Ha, Hc. rewrite Ha, Hc. reflexivity. }
  split; [exact Hv|]. intros cs. rewrite invoke_all_state.
  split; [reflexivity|]. split; [exact Hv|].
  intros i Hi. rewrite (invoke_all_outcome cs _ i _ Hi).
  cbn [Abonnement.invoke snd]. rewrite Hv. reflexivity.
Qed.

Lemma validate_family_stable_witness :
  exists a,
    Abonnement.__init__ FAMILLE 1 (Date.mk 2024 1 5) 2 2 true = Ok a /\
    Abonnement.validate_family a = true /\
    snd (Abonnement.invoke_all
           [Abonnement.call_validate_family; Abonnement.get_total_cost;
            Abonnement.call_validate_family] a) !! 2%nat
    = Some (Ok (Abonnement.VBool true)).
Proof.
  eexists. split; [reflexivity|].
  split.
  - apply (validate_family_stable FAMILLE 1 (Date.mk 2024 1 5) 2 2 true). reflexivity.
  - apply (validate_family_stable FAMILLE 1 (Date.mk 2024 1 5) 2 2 true);
      reflexivity.
Defined.

(** ** Decimal arithmetic on amounts of at most two decimals *)

Lemma quantize_cents_exponent (x : Decimal) :
  Decimal.exponent (Decimal.quantize_cents x) = -2.
Proof. unfold Decimal.quantize_cents. destruct (_ <=? 0); reflexivity. Qed.

(** Quantizing an amount that has at most two decimals drops no digit. *)
Lemma quantize_cents_exact (x : Decimal) :
  -2 <= Decimal.exponent x ->
  Decimal.quantize_cents x = dec (Decimal.cents x) (-2).
Proof.
  intros H. unfold Decimal.quantize_cents, Decimal.cents, Decimal.units.
  destruct (-2 - Decimal.exponent x <=? 0) eqn:K; [|apply Z.leb_gt in K; lia].
  f_equal. f_equal. f_equal. lia.
Qed.

Lemma cents_two_decimals (c : Z) : Decimal.cents (dec c (-2)) = c.
Proof. unfold Decimal.cents, Decimal.units. cbn. lia. Qed.

Lemma cents_quantize_cents (x : Decimal) :
  -2 <= Decimal.exponent x ->
  Decimal.cents (Decimal.quantize_cents x) = Decimal.cents x.
Proof. intros H. rewrite quantize_cents_exact by exact H. apply cents_two_decimals. Qed.

Lemma exponent_add (x y : Decimal) :
  Decimal.exponent (Decimal.add x y) = Z.min (Decimal.exponent x) (Decimal.exponent y).
Proof. reflexivity. Qed.

Lemma exponent_mul_int (x : Decimal) (n : Z) :
  Decimal.exponent (Decimal.mul_int x n) = Decimal.exponent x.
Proof. cbn. lia. Qed.

Lemma cents_add (x y : Decimal) :
  -2 <= Decimal.exponent x -> -2 <= Decimal.exponent y ->
  Decimal.cents (Decimal.add x y) = Decimal.cents x + Decimal.cents y.
Proof.
  intros Hx Hy. unfold Decimal.cents, Decimal.add, Decimal.units.
  cbn [Decimal.coefficient Decimal.exponent].
  set (e := Z.min (Decimal.exponent x) (Decimal.exponent y)).
  assert (He : -2 <= e /\ e <= Decimal.exponent x /\ e <= Decimal.exponent y)
    by (subst e; lia).
  rewrite Z.mul_add_distr_r, <- !Z.mul_assoc, <- !Z.pow_add_r by lia.
  f_equal; f_equal; f_equal; lia.
Qed.

Lemma cents_mul_int (x : Decimal) (n : Z) :
  Decimal.cents (Decimal.mul_int x n) = Decimal.cents x * n.
Proof.
  unfold Decimal.cents, Decimal.mul_int, Decimal.units.
  cbn [Decimal.coefficient Decimal.exponent].
  replace (Decimal.exponent x + 0 - -2) with (Decimal.exponent x - -2) by lia. ring.
Qed.


(** In general the quantized value is a nearest hundredth, and a tie goes
    away from zero. *)
Lemma quantize_cents_nearest (x : Decimal) :
  Decimal.exponent x < -2 -> 0 <= Decimal.coefficient x ->
  let p := 10 ^ (-2 - Decimal.exponent x) in
  let c := Decimal.coefficient (Decimal.quantize_cents x) in
  2 * c * p - p <= 2 * Decimal.coefficient x < 2 * c * p + p.
Proof.
  intros He Hc p c. subst c. unfold Decimal.quantize_cents.
  destruct (-2 - Decimal.exponent x <=? 0) eqn:K; [apply Z.leb_le in K; lia|].
  cbn [Decimal.coefficient]. fold p. rewrite Z.abs_eq by exact Hc.
  assert (Hp : 0 < p) by (subst p; apply Z.pow_pos_nonneg; lia).
  pose proof (Z.div_mod (Decimal.coefficient x) p ltac:(lia)) as Hdm.
  pose proof (Z.mod_pos_bound (Decimal.coefficient x) p Hp) as Hm.
  assert (Hq : 0 <= Decimal.coefficient x / p) by (apply Z.div_pos; lia).
  set (q := Decimal.coefficient x / p) in *.
  set (r := Decimal.coefficient x mod p) in *.
  destruct (Z.eq_dec (Decimal.coefficient x) 0) as [H0|H0].
  - rewrite H0. rewrite Z.sgn_0, Z.mul_0_l. lia.
  - rewrite Z.sgn_pos by lia.
    destruct (p <=? 2 * r) eqn:A; [apply Z.leb_le in A | apply Z.leb_gt in A]; nia.
Qed.

(** ** The amounts of the tables *)

Lemma table_amount_intro (c e : Z) :
  ((e =? -2) || (e =? 0)) && (0 <=? c * 10 ^ (e - -2)) && (c * 10 ^ (e - -2) <? 10000) = true ->
  table_amount (dec c e).
Proof.
  rewrite !andb_true_iff, orb_true_iff, !Z.eqb_eq, Z.leb_le, Z.ltb_lt.
  intros [[He H0] H1]. split; [exact He|]. split; assumption.
Qed.

Lemma tables_plans (f : Formula) (tp : TariffPlan) :
  TABLE_1 !! f = Some tp \/ TABLE_2 !! f = Some tp -> table_plan tp.
Proof.
  intros [H|H]; destruct f; vm_compute in H; try discriminate;
    injection H as <-; (split; [|intros [|[|[|i]]]]);
    apply table_amount_intro; reflexivity.
Qed.

Lemma built_plan (f : Formula) (d : Z) (sd : date) (ad ch : Z) (lp : bool) (a : Abonnement) :
  Abonnement.__init__ f d sd ad ch lp = Ok a ->
  table_plan (Abonnement._tariff a) /\
  Abonnement.duration_months a = d /\ Abonnement.start_date a = sd /\
  (d = 1 \/ d = 6 \/ d = 12).
Proof.
  intros H. apply init_inv in H as (tp & Hr & -> & _).
  cbn [Abonnement._tariff Abonnement.duration_months Abonnement.start_date].
  apply resolve_tariff_inv in Hr.
  split; [apply (tables_plans f); tauto|]. split; [reflexivity|]. split; [reflexivity|].
  lia.
Qed.

Lemma first_payment_for_day_in_range (tp : TariffPlan) (start_day : Z) :
  1 <= start_day <= 31 ->
  exists i : nat,
    TariffPlan.first_payment_for_day tp start_day = Ok (TariffPlan.bracket tp i).
Proof.
  intros H. unfold TariffPlan.first_payment_for_day.
  destruct (1 <=? start_day) eqn:L1; [|apply Z.leb_gt in L1; lia].
  destruct (start_day <=? 31) eqn:L31; [|apply Z.leb_gt in L31; lia].
  cbn [andb negb].
  destruct (start_day <=? 8); [eauto|].
  destruct (start_day <=? 16); [eauto|].
  destruct (start_day <=? 22); eauto.
Qed.

(** ** First payment and total cost *)

(** C10: a subscription built on a date that [datetime.date] accepts has a
    start day in 1..31, so [first_payment] returns an amount and does not
    raise the day-range error. *)
Theorem first_payment_never_raises
    (y m d : Z) (sd : date) (f : Formula) (dur ad ch : Z) (lp : bool) (a : Abonnement) :
  Date.new y m d = Ok sd ->
  Abonnement.__init__ f dur sd ad ch lp = Ok a ->
  1 <= Date.day (Abonnement.start_date a) <= 31 /\
  succeeds (Abonnement.first_payment a) /\
  ~ fails (Abonnement.first_payment a).
Proof.
  intros Hd Ha. apply date_new_day_range in Hd.
  destruct (built_plan _ _ _ _ _ _ _ Ha) as (_ & _ & Hsd & _). rewrite Hsd.
  split; [exact Hd|].
  destruct (first_payment_for_day_in_range (Abonnement._tariff a) _ Hd) as [i Hi].
  unfold Abonnement.first_payment. rewrite Hsd, Hi. cbn [bind].
  split; [eexists; reflexivity | intros [msg Hm]; discriminate].
Qed.

Lemma first_payment_never_raises_witness :
  exists sd a,
    Date.new 2024 5 10 = Ok sd /\
    Abonnement.__init__ ILLIMITE_WEEKEND 1 sd 1 0 false = Ok a /\
    succeeds (Abonnement.first_payment a).
Proof.
  eexists. eexists. split; [reflexivity|]. split; [reflexivity|].
  apply (first_payment_never_raises 2024 5 10 (Date.mk 2024 5 10)
           ILLIMITE_WEEKEND 1 1 0 false); reflexivity.
Defined.

(** C2: on a subscription built on a valid date, [total_cost] is the
    first payment plus the monthly fee times [max(duration - 1, 0)],
    quantized half-up to two decimals.  The quantization acts on the sum
    only: the total is the same when computed from the bracket amount before
    [first_payment] quantizes it, and it drops no digit, the cents of the
    total being exactly the cents of the first payment plus those of the fee
    times the remaining months. *)
Theorem total_cost_formula
    (y m d : Z) (sd : date) (f : Formula) (dur ad ch : Z) (lp : bool) (a : Abonnement) :
  Date.new y m d = Ok sd ->
  Abonnement.__init__ f dur sd ad ch lp = Ok a ->
  let remaining := Z.max (dur - 1) 0 in
  let fee := Abonnement.monthly_fee a in
  exists raw fp total,
    TariffPlan.first_payment_for_day (Abonnement._tariff a) d = Ok raw /\
    Abonnement.first_payment a = Ok fp /\
    Abonnement.total_cost a = Ok total /\
    total = Decimal.quantize_cents (Decimal.add fp (Decimal.mul_int fee remaining)) /\
    total = Decimal.quantize_cents (Decimal.add raw (Decimal.mul_int fee remaining)) /\
    Decimal.exponent total = -2 /\
    -2 <= Decimal.exponent fee /\
    Decimal.cents total = Decimal.cents fp + Decimal.cents fee * remaining.
Proof.
  intros Hd Ha remaining fee.
  destruct (date_new_inv _ _ _ _ Hd) as [Hsd Hrange].
  pose proof (days_in_month_le_31 y m) as H31.
  destruct (built_plan _ _ _ _ _ _ _ Ha) as ([Hfee Hbr] & Hdur & Hst & _).
  destruct (first_payment_for_day_in_range (Abonnement._tariff a) d ltac:(lia)) as [i Hi].
  specialize (Hbr i). set (raw := TariffPlan.bracket (Abonnement._tariff a) i) in *.
  assert (Hraw : -2 <= Decimal.exponent raw) by (destruct Hbr as [[E|E] _]; lia).
  assert (Hf : -2 <= Decimal.exponent fee) by (destruct Hfee as [[E|E] _]; subst fee;
    unfold Abonnement.monthly_fee; lia).
  assert (Hfp : Abonnement.first_payment a = Ok (Decimal.quantize_cents raw)).
  { unfold Abonnement.first_payment. rewrite Hst, Hsd. cbn [Date.day].
    rewrite Hi. reflexivity. }
  exists raw, (Decimal.quantize_cents raw),
    (Decimal.quantize_cents
       (Decimal.add (Decimal.quantize_cents raw) (Decimal.mul_int fee remaining))).
  assert (Hsum : forall x, -2 <= Decimal.exponent x ->
            -2 <= Decimal.exponent (Decimal.add x (Decimal.mul_int fee remaining))).
  { intros x Hx. rewrite exponent_add, exponent_mul_int. lia. }
  assert (Hqe : Decimal.exponent (Decimal.quantize_cents raw) = -2)
    by apply quantize_cents_exponent.
  split; [exact Hi|]. split; [exact Hfp|]. split.
  { unfold Abonnement.total_cost. rewrite Hfp, Hdur. reflexivity. }
  split; [reflexivity|]. split.
  { rewrite (quantize_cents_exact (Decimal.add raw _)) by (apply Hsum; lia).
    rewrite (quantize_cents_exact (Decimal.add (Decimal.quantize_cents raw) _))
      by (apply Hsum; lia).
    rewrite (cents_add raw), (cents_add (Decimal.quantize_cents raw))
      by (rewrite ?exponent_mul_int; lia).
    rewrite cents_quantize_cents by lia. reflexivity. }
  split; [apply quantize_cents_exponent|]. split; [exact Hf|].
  rewrite cents_quantize_cents by (apply Hsum; lia).
  rewrite cents_add, cents_mul_int by (rewrite ?exponent_mul_int; lia).
  reflexivity.
Qed.

Lemma total_cost_formula_witness :
  exists sd a,
    Date.new 2024 5 20 = Ok sd /\
    Abonnement.__init__ CINE_DAY 6 sd 1 0 false = Ok a /\
    exists fp total,
      Abonnement.first_payment a = Ok fp /\
      Abonnement.total_cost a = Ok total /\
      Decimal.cents total
      = Decimal.cents fp + Decimal.cents (Abonnement.monthly_fee a) * Z.max (6 - 1) 0.
Proof.
  eexists. eexists. split; [reflexivity|]. split; [reflexivity|].
  destruct (total_cost_formula 2024 5 20 (Date.mk 2024 5 20) CINE_DAY 6 1 0 false _
              eq_refl eq_refl) as (raw & fp & total & _ & Hfp & Ht & _ & _ & _ & _ & Hc).
  exists fp, total. split; [exact Hfp|]. split; [exact Ht | exact Hc].
Defined.

(** X1: the arithmetic of [total_cost] stays far below the 28 digits of
    the default decimal context, so no operation of a built subscription is
    rounded or refused by the context. *)
Lemma total_cost_in_context
    (y m d : Z) (sd : date) (f : Formula) (dur ad ch : Z) (lp : bool)
    (a : Abonnement) (fp : Decimal) :
  Date.new y m d = Ok sd ->
  Abonnement.__init__ f dur sd ad ch lp = Ok a ->
  Abonnement.first_payment a = Ok fp ->
  let product := Decimal.mul_int (Abonnement.monthly_fee a) (Z.max (dur - 1) 0) in
  Decimal.in_context fp /\
  Decimal.in_context product /\
  Decimal.in_context (Decimal.add fp product) /\
  Decimal.in_context (Decimal.quantize_cents (Decimal.add fp product)).
Proof.
  intros Hd Ha Hfp product.
  destruct (date_new_inv _ _ _ _ Hd) as [Hsd Hrange].
  pose proof (days_in_month_le_31 y m) as H31.
  destruct (built_plan _ _ _ _ _ _ _ Ha) as ([Hfee Hbr] & Hdur & Hst & Hd3).
  destruct (first_payment_for_day_in_range (Abonnement._tariff a) d ltac:(lia)) as [i Hi].
  specialize (Hbr i).
  unfold Abonnement.first_payment in Hfp. rewrite Hst, Hsd in Hfp. cbn [Date.day] in Hfp.
  rewrite Hi in Hfp. cbn [bind] in Hfp. injection Hfp as <-.
  set (raw := TariffPlan.bracket (Abonnement._tariff a) i) in *.
  fold (Abonnement.monthly_fee a) in Hfee. set (fee := Abonnement.monthly_fee a) in *.
  assert (Hk : 0 <= Z.max (dur - 1) 0 <= 11) by lia.
  set (k := Z.max (dur - 1) 0) in *.
  assert (Hq : Decimal.quantize_cents raw = dec (Decimal.cents raw) (-2))
    by (apply quantize_cents_exact; destruct Hbr as [[E|E] _]; lia).
  assert (Hpe : -2 <= Decimal.exponent product)
    by (subst product; rewrite exponent_mul_int; destruct Hfee as [[E|E] _]; lia).
  assert (Hpc : Decimal.cents product = Decimal.cents fee * k)
    by apply cents_mul_int.
  assert (Hfc : Z.abs (Decimal.coefficient fee) <= Decimal.cents fee).
  { destruct Hfee as [[E|E] B]; unfold Decimal.cents, Decimal.units in *;
      rewrite E in *; cbn in *; lia. }
  assert (Hsum : Decimal.add (dec (Decimal.cents raw) (-2)) product
                 = dec (Decimal.cents raw + Decimal.cents product) (-2)).
  { unfold Decimal.add. cbn [Decimal.exponent].
    replace (Z.min (-2) (Decimal.exponent product)) with (-2) by lia.
    fold (Decimal.cents (dec (Decimal.cents raw) (-2))). fold (Decimal.cents product).
    rewrite cents_two_decimals. reflexivity. }
  destruct Hbr as [_ Hb]. destruct Hfee as [_ Hfe].
  rewrite Hq, Hsum. unfold Decimal.in_context.
  rewrite quantize_cents_exact by (cbn; lia). rewrite cents_two_decimals.
  cbn [Decimal.coefficient]. change (10 ^ 28) with 10000000000000000000000000000.
  repeat split; try nia.
  subst product. cbn [Decimal.mul_int Decimal.coefficient]. nia.
Qed.

(** C8: Illimité 26+ for 6 months from the 9th of any month: the
    subscription is built, the first payment is 22.90 and the total cost is
    137.40, both written with two decimals. *)
Theorem illimite_26_plus_six_months
    (y m : Z) (sd : date) (ad ch : Z) (lp : bool) :
  Date.new y m 9 = Ok sd ->
  exists a,
    Abonnement.__init__ ILLIMITE_26_PLUS 6 sd ad ch lp = Ok a /\
    Abonnement.monthly_fee a = dec 2290 (-2) /\
    Abonnement.first_payment a = Ok (dec 2290 (-2)) /\
    Abonnement.total_cost a = Ok (dec 13740 (-2)).
Proof.
  intros Hd. apply date_new_inv in Hd as [-> _].
  eexists. split; [reflexivity|]. repeat split; reflexivity.
Qed.

Lemma illimite_26_plus_six_months_witness :
  exists a,
    Abonnement.create ILLIMITE_26_PLUS 6 (Date.mk 2024 5 9) = Ok a /\
    Abonnement.first_payment a = Ok (dec 2290 (-2)) /\
    Abonnement.total_cost a = Ok (dec 13740 (-2)).
Proof.
  destruct (illimite_26_plus_six_months 2024 5 (Date.mk 2024 5 9) 1 0 false eq_refl)
    as (a & Ha & _ & Hfp & Ht).
  exists a. split; [exact Ha|]. split; [exact Hfp | exact Ht].
Defined.

(** ** Quantization of the public amounts *)



(** Every stored fee but that of CINE DAY is written with two decimals. *)
Lemma stored_fee_two_decimals (f : Formula) (tp : TariffPlan) :
  TABLE_1 !! f = Some tp \/ (TABLE_2 !! f = Some tp /\ f <> CINE_DAY) ->
  Decimal.exponent (TariffPlan.monthly_fee tp) = -2.
Proof.
  intros [H|[H Hf]]; destruct f; vm_compute in H; try discriminate;
    try (injection H as <-; reflexivity).
  exfalso. apply Hf. reflexivity.
Qed.

(** C6: the monthly fee of a CINE DAY subscription (6 months from
    2024-05-20) is returned as stored, [Decimal("8")] with no fractional
    digit, where quantizing it would give 8.00; the first payment and the
    total cost of the same subscription are quantized, 8.00 and 48.00. *)
Theorem cine_day_monthly_fee_not_quantized :
  exists sd a,
    Date.new 2024 5 20 = Ok sd /\
    Abonnement.create CINE_DAY 6 sd = Ok a /\
    Abonnement.monthly_fee a = dec 8 0 /\
    Decimal.exponent (Abonnement.monthly_fee a) = 0 /\
    Decimal.quantize_cents (Abonnement.monthly_fee a) = dec 800 (-2) /\
    Abonnement.first_payment a = Ok (dec 800 (-2)) /\
    Abonnement.total_cost a = Ok (dec 4800 (-2)).
Proof.
  eexists. eexists. split; [reflexivity|]. split; [reflexivity|].
  repeat split; reflexivity.
Qed.

(** C7: [monthly_fee] is the fee of the resolved plan as stored; the fee
    stored for CINE DAY in [TABLE_2] is [Decimal("8")], exponent 0: equal
    in value to 8.00 but not written with two decimals. *)
Theorem cine_day_stored_fee :
  exists tp,
    TABLE_2 !! CINE_DAY = Some tp /\
    Abonnement._resolve_tariff CINE_DAY 6 = Ok tp /\
    Abonnement._resolve_tariff CINE_DAY 12 = Ok tp /\
    (let? a := Abonnement.create CINE_DAY 6 (Date.mk 2024 5 20) in
     Ok (Abonnement.monthly_fee a)) = Ok (TariffPlan.monthly_fee tp) /\
    TariffPlan.monthly_fee tp = dec 8 0 /\
    Decimal.exponent (TariffPlan.monthly_fee tp) = 0 /\
    Decimal.eqb (TariffPlan.monthly_fee tp) (dec 800 (-2)) = true.
Proof.
  eexists. split; [reflexivity|]. split; [reflexivity|]. split; [reflexivity|].
  repeat split; reflexivity.
Qed.


(** * Further properties of the pricing rules *)

(** ** What a built subscription computes *)

Lemma first_payment_for_day_bracket_of_day (tp : TariffPlan) (start_day : Z) :
  1 <= start_day <= 31 ->
  TariffPlan.first_payment_for_day tp start_day
  = Ok (TariffPlan.bracket tp (bracket_of_day start_day)).
Proof.
  intros H. unfold TariffPlan.first_payment_for_day, bracket_of_day.
  destruct (1 <=? start_day) eqn:L1; [|apply Z.leb_gt in L1; lia].
  destruct (start_day <=? 31) eqn:L31; [|apply Z.leb_gt in L31; lia].
  cbn [andb negb].
  destruct (start_day <=? 8); [reflexivity|].
  destruct (start_day <=? 16); [reflexivity|].
  destruct (start_day <=? 22); reflexivity.
Qed.

Lemma bracket_of_day_lt_4 (start_day : Z) : (bracket_of_day start_day < 4)%nat.
Proof.
  unfold bracket_of_day.
  destruct (start_day <=? 8); [lia|].
  destruct (start_day <=? 16); [lia|].
  destruct (start_day <=? 22); lia.
Qed.

(** The plan, the first payment and the total cost of a subscription built
    on a valid date, in terms of the table entry. *)
Lemma built_on_date
    (y m d : Z) (sd : date) (f : Formula) (dur ad ch : Z) (lp : bool) (a : Abonnement) :
  Date.new y m d = Ok sd ->
  Abonnement.__init__ f dur sd ad ch lp = Ok a ->
  exists tp,
    ((dur = 1 /\ TABLE_1 !! f = Some tp) \/
     ((dur = 6 \/ dur = 12) /\ TABLE_2 !! f = Some tp)) /\
    1 <= d <= 31 /\
    Abonnement.monthly_fee a = TariffPlan.monthly_fee tp /\
    Abonnement.first_payment a
    = Ok (Decimal.quantize_cents (TariffPlan.bracket tp (bracket_of_day d))) /\
    Abonnement.total_cost a
    = Ok (Decimal.quantize_cents
            (Decimal.add
               (Decimal.quantize_cents (TariffPlan.bracket tp (bracket_of_day d)))
               (Decimal.mul_int (TariffPlan.monthly_fee tp) (Z.max (dur - 1) 0)))).
Proof.
  intros Hd Ha. destruct (date_new_inv _ _ _ _ Hd) as [-> Hrange].
  pose proof (days_in_month_le_31 y m) as H31.
  apply init_inv in Ha as (tp & Hr & -> & _).
  apply resolve_tariff_inv in Hr.
  assert (Hfp : Abonnement.first_payment
                  (Abonnement.mk f dur (Date.mk y m d) ad ch lp tp)
                = Ok (Decimal.quantize_cents (TariffPlan.bracket tp (bracket_of_day d)))).
  { unfold Abonnement.first_payment.
    cbn [Abonnement._tariff Abonnement.start_date Date.day].
    rewrite first_payment_for_day_bracket_of_day by lia. reflexivity. }
  exists tp. split; [exact Hr|]. split; [lia|]. split; [reflexivity|].
  split; [exact Hfp|].
  unfold Abonnement.total_cost. rewrite Hfp. reflexivity.
Qed.

(** The stored amounts, plan by plan: a positive fee, each bracket between
    the fee and twice the fee. *)
Lemma tables_bracket_bounds (f : Formula) (tp : TariffPlan) (i : nat) :
  TABLE_1 !! f = Some tp \/ TABLE_2 !! f = Some tp ->
  (i < 4)%nat ->
  0 < Decimal.cents (TariffPlan.monthly_fee tp) /\
  Decimal.cents (TariffPlan.monthly_fee tp)
  <= Decimal.cents (TariffPlan.bracket tp i)
  <= 2 * Decimal.cents (TariffPlan.monthly_fee tp).
Proof.
  intros [H|H] Hi; plan_cases f H i Hi; vm_compute; repeat split; congruence.
Qed.

(** The amounts of a subscription built on a valid date, in cents of the
    table entry: quantizing drops nothing. *)
Lemma built_prices
    (y m d : Z) (sd : date) (f : Formula) (dur ad ch : Z) (lp : bool) (a : Abonnement) :
  Date.new y m d = Ok sd ->
  Abonnement.__init__ f dur sd ad ch lp = Ok a ->
  exists tp,
    ((dur = 1 /\ TABLE_1 !! f = Some tp) \/
     ((dur = 6 \/ dur = 12) /\ TABLE_2 !! f = Some tp)) /\
    1 <= d <= 31 /\
    Abonnement.monthly_fee a = TariffPlan.monthly_fee tp /\
    Abonnement.first_payment a
    = Ok (dec (Decimal.cents (TariffPlan.bracket tp (bracket_of_day d))) (-2)) /\
    Abonnement.total_cost a
    = Ok (dec (Decimal.cents (TariffPlan.bracket tp (bracket_of_day d))
               + Decimal.cents (TariffPlan.monthly_fee tp) * (dur - 1)) (-2)).
Proof.
  intros Hd Ha.
  destruct (built_on_date _ _ _ _ _ _ _ _ _ _ Hd Ha)
    as (tp & Htab & Hday & Hfee & Hfp & Ht).
  destruct (tables_plans f tp ltac:(tauto)) as [[Hfe _] Hp].
  destruct (Hp (bracket_of_day d)) as [Hbe _].
  set (raw := TariffPlan.bracket tp (bracket_of_day d)) in *.
  set (fee := TariffPlan.monthly_fee tp) in *.
  assert (Hraw : Decimal.quantize_cents raw = dec (Decimal.cents raw) (-2))
    by (apply quantize_cents_exact; lia).
  exists tp. split; [exact Htab|]. split; [exact Hday|]. split; [exact Hfee|].
  rewrite Hfp, Ht, Hraw. split; [reflexivity|].
  rewrite quantize_cents_exact
    by (rewrite exponent_add, exponent_mul_int; cbn [Decimal.exponent]; lia).
  rewrite cents_add, cents_mul_int, cents_two_decimals
    by (rewrite ?exponent_mul_int; cbn [Decimal.exponent]; lia).
  replace (Z.max (dur - 1) 0) with (dur - 1) by lia. reflexivity.
Qed.

(** X2: on a subscription built on a valid date the first payment is at
    least the monthly fee and at most twice the monthly fee, and the total
    cost lies between [duration] and [duration + 1] monthly fees; the fee is
    positive. *)
Theorem price_bounds
    (y m d : Z) (sd : date) (f : Formula) (dur ad ch : Z) (lp : bool) (a : Abonnement) :
  Date.new y m d = Ok sd ->
  Abonnement.__init__ f dur sd ad ch lp = Ok a ->
  exists fp total,
    Abonnement.first_payment a = Ok fp /\
    Abonnement.total_cost a = Ok total /\
    let fee := Decimal.cents (Abonnement.monthly_fee a) in
    0 < fee /\
    fee <= Decimal.cents fp <= 2 * fee /\
    fee * dur <= Decimal.cents total <= fee * (dur + 1).
Proof.
  intros Hd Ha.
  destruct (built_prices _ _ _ _ _ _ _ _ _ _ Hd Ha)
    as (tp & Htab & Hday & Hfee & Hfp & Ht).
  eexists. eexists. split; [exact Hfp|]. split; [exact Ht|]. cbv zeta.
  assert (Hb := tables_bracket_bounds f tp (bracket_of_day d)
                  ltac:(tauto) (bracket_of_day_lt_4 d)).
  rewrite !cents_two_decimals, Hfee. nia.
Qed.

Lemma price_bounds_witness :
  exists a fp total,
    Abonnement.__init__ FAMILLE 12 (Date.mk 2024 2 29) 2 2 true = Ok a /\
    Abonnement.first_payment a = Ok fp /\
    Abonnement.total_cost a = Ok total /\
    Decimal.cents (Abonnement.monthly_fee a) * 12 <= Decimal.cents total.
Proof.
  eexists.
  destruct (price_bounds 2024 2 29 (Date.mk 2024 2 29) FAMILLE 12 2 2 true _
              eq_refl eq_refl) as (fp & total & Hfp & Ht & _ & _ & Hb).
  exists fp, total. split; [reflexivity|]. split; [exact Hfp|]. split; [exact Ht|].
  apply Hb.
Defined.

Lemma built_same_plan (f : Formula) (dur : Z) (tp1 tp2 : TariffPlan) :
  (dur = 1 /\ TABLE_1 !! f = Some tp1) \/ ((dur = 6 \/ dur = 12) /\ TABLE_2 !! f = Some tp1) ->
  (dur = 1 /\ TABLE_1 !! f = Some tp2) \/ ((dur = 6 \/ dur = 12) /\ TABLE_2 !! f = Some tp2) ->
  tp1 = tp2.
Proof. intros [[? H1]|[? H1]] [[? H2]|[? H2]]; try lia; congruence. Qed.

Lemma bracket_of_day_mono (d1 d2 : Z) :
  d1 <= d2 -> (bracket_of_day d1 <= bracket_of_day d2)%nat.
Proof.
  intros H. unfold bracket_of_day.
  destruct (d1 <=? 8) eqn:A1; destruct (d1 <=? 16) eqn:B1; destruct (d1 <=? 22) eqn:C1;
    destruct (d2 <=? 8) eqn:A2; destruct (d2 <=? 16) eqn:B2; destruct (d2 <=? 22) eqn:C2;
    repeat match goal with
      | H : (_ <=? _) = true |- _ => apply Z.leb_le in H
      | H : (_ <=? _) = false |- _ => apply Z.leb_gt in H
      end; lia.
Qed.

Lemma TABLE_1_extremes (f : Formula) (tp : TariffPlan) :
  TABLE_1 !! f = Some tp ->
  Decimal.cents (TariffPlan.bracket tp 0) = 2 * Decimal.cents (TariffPlan.monthly_fee tp) /\
  Decimal.cents (TariffPlan.bracket tp 3) = Decimal.cents (TariffPlan.monthly_fee tp).
Proof. intros H. table_cases f H; split; reflexivity. Qed.

Lemma TABLE_2_from_ninth (f : Formula) (tp : TariffPlan) (i : nat) :
  TABLE_2 !! f = Some tp -> (1 <= i)%nat ->
  TariffPlan.bracket tp i = TariffPlan.monthly_fee tp.
Proof.
  intros H Hi. table_cases f H; (destruct i as [|[|[|i]]]; [lia| | |]); reflexivity.
Qed.

Lemma tables_same_fee (f : Formula) (tp1 tp2 : TariffPlan) :
  TABLE_1 !! f = Some tp1 -> TABLE_2 !! f = Some tp2 ->
  TariffPlan.monthly_fee tp1 = TariffPlan.monthly_fee tp2.
Proof. intros H1 H2. table_cases f H1; vm_compute in H2; injection H2 as <-; reflexivity. Qed.

(** X3: for a one-month subscription built on a valid date the total cost
    is the first payment, as the same decimal. *)
Theorem one_month_total_is_first_payment
    (y m d : Z) (sd : date) (f : Formula) (ad ch : Z) (lp : bool) (a : Abonnement) :
  Date.new y m d = Ok sd ->
  Abonnement.__init__ f 1 sd ad ch lp = Ok a ->
  succeeds (Abonnement.total_cost a) /\
  Abonnement.total_cost a = Abonnement.first_payment a.
Proof.
  intros Hd Ha.
  destruct (built_prices _ _ _ _ _ _ _ _ _ _ Hd Ha) as (tp & _ & _ & _ & Hfp & Ht).
  rewrite Ht, Hfp. split; [eexists; reflexivity|].
  do 2 f_equal. lia.
Qed.

Lemma one_month_total_is_first_payment_witness :
  exists a,
    Abonnement.create ILLIMITE_WEEKEND 1 (Date.mk 2024 5 10) = Ok a /\
    Abonnement.total_cost a = Ok (dec 2243 (-2)).
Proof.
  eexists. split; [reflexivity|].
  rewrite (proj2 (one_month_total_is_first_payment 2024 5 10 (Date.mk 2024 5 10)
                    ILLIMITE_WEEKEND 1 0 false _ eq_refl eq_refl)).
  reflexivity.
Defined.

(** X4: a 6- or 12-month subscription that starts on the 9th or later pays
    the monthly fee as first payment, and its total cost is the monthly fee
    times the duration. *)
Theorem long_commitment_from_the_ninth
    (y m d : Z) (sd : date) (f : Formula) (dur ad ch : Z) (lp : bool) (a : Abonnement) :
  Date.new y m d = Ok sd ->
  9 <= d ->
  dur = 6 \/ dur = 12 ->
  Abonnement.__init__ f dur sd ad ch lp = Ok a ->
  Abonnement.first_payment a = Ok (Decimal.quantize_cents (Abonnement.monthly_fee a)) /\
  Abonnement.total_cost a = Ok (dec (Decimal.cents (Abonnement.monthly_fee a) * dur) (-2)).
Proof.
  intros Hd H9 Hdur Ha.
  destruct (built_prices _ _ _ _ _ _ _ _ _ _ Hd Ha)
    as (tp & [[? _]|[_ Htab]] & _ & Hfee & Hfp & Ht); [lia|].
  assert (Hi : (1 <= bracket_of_day d)%nat).
  { change 1%nat with (bracket_of_day 9). apply bracket_of_day_mono. exact H9. }
  rewrite (TABLE_2_from_ninth f tp _ Htab Hi) in Hfp, Ht.
  destruct (tables_plans f tp ltac:(tauto)) as [[Hfe _] _].
  rewrite Hfp, Ht, Hfee. split.
  - rewrite quantize_cents_exact by lia. reflexivity.
  - do 2 f_equal. lia.
Qed.

Lemma long_commitment_from_the_ninth_witness :
  exists a,
    Abonnement.create ILLIMITE_2_PERS 12 (Date.mk 2023 12 31) = Ok a /\
    Abonnement.total_cost a = Ok (dec 44160 (-2)).
Proof.
  eexists. split; [reflexivity|].
  apply (long_commitment_from_the_ninth 2023 12 31 (Date.mk 2023 12 31)
           ILLIMITE_2_PERS 12 1 0 false); [reflexivity | lia | lia | reflexivity].
Defined.

(** X5: for the same formula and start date, committing for 12 months
    instead of 6 leaves the monthly fee and the first payment unchanged and
    adds exactly six monthly fees to the total cost. *)
Theorem twelve_months_add_six_fees
    (y m d : Z) (sd : date) (f : Formula) (ad ch ad' ch' : Z) (lp lp' : bool)
    (a6 a12 : Abonnement) :
  Date.new y m d = Ok sd ->
  Abonnement.__init__ f 6 sd ad ch lp = Ok a6 ->
  Abonnement.__init__ f 12 sd ad' ch' lp' = Ok a12 ->
  Abonnement.monthly_fee a12 = Abonnement.monthly_fee a6 /\
  Abonnement.first_payment a12 = Abonnement.first_payment a6 /\
  exists t6 t12,
    Abonnement.total_cost a6 = Ok t6 /\
    Abonnement.total_cost a12 = Ok t12 /\
    Decimal.cents t12 = Decimal.cents t6 + 6 * Decimal.cents (Abonnement.monthly_fee a6).
Proof.
  intros Hd H6 H12.
  destruct (built_prices _ _ _ _ _ _ _ _ _ _ Hd H6)
    as (tp & [[? _]|[_ Htab]] & _ & Hfee & Hfp & Ht); [lia|].
  destruct (built_prices _ _ _ _ _ _ _ _ _ _ Hd H12)
    as (tp' & [[? _]|[_ Htab']] & _ & Hfee' & Hfp' & Ht'); [lia|].
  assert (tp' = tp) as -> by congruence.
  split; [congruence|]. split; [congruence|].
  eexists. eexists. split; [exact Ht|]. split; [exact Ht'|].
  rewrite !cents_two_decimals, Hfee. lia.
Qed.

Lemma twelve_months_add_six_fees_witness :
  exists a6 a12 t6 t12,
    Abonnement.create ILLIMITE_26_MINUS 6 (Date.mk 2024 5 3) = Ok a6 /\
    Abonnement.create ILLIMITE_26_MINUS 12 (Date.mk 2024 5 3) = Ok a12 /\
    Abonnement.total_cost a6 = Ok t6 /\
    Abonnement.total_cost a12 = Ok t12 /\
    Decimal.cents t12 = Decimal.cents t6 + 6 * Decimal.cents (Abonnement.monthly_fee a6).
Proof.
  eexists. eexists.
  destruct (twelve_months_add_six_fees 2024 5 3 (Date.mk 2024 5 3) ILLIMITE_26_MINUS
              1 0 1 0 false false _ _ eq_refl eq_refl eq_refl)
    as (_ & _ & t6 & t12 & H6 & H12 & Hc).
  exists t6, t12. split; [reflexivity|]. split; [reflexivity|].
  split; [exact H6|]. split; [exact H12 | exact Hc].
Defined.

(** X6: a one-month subscription that starts on the 8th or earlier pays
    twice the monthly fee as first payment; one that starts on the 23rd or
    later pays the monthly fee. *)
Theorem one_month_first_payment_extremes
    (y m d : Z) (sd : date) (f : Formula) (ad ch : Z) (lp : bool) (a : Abonnement) :
  Date.new y m d = Ok sd ->
  Abonnement.__init__ f 1 sd ad ch lp = Ok a ->
  exists fp,
    Abonnement.first_payment a = Ok fp /\
    (d <= 8 -> Decimal.cents fp = 2 * Decimal.cents (Abonnement.monthly_fee a)) /\
    (23 <= d -> Decimal.cents fp = Decimal.cents (Abonnement.monthly_fee a)).
Proof.
  intros Hd Ha.
  destruct (built_prices _ _ _ _ _ _ _ _ _ _ Hd Ha)
    as (tp & [[_ Htab]|[? _]] & _ & Hfee & Hfp & _); [|lia].
  destruct (TABLE_1_extremes f tp Htab) as [H0 H3].
  eexists. split; [exact Hfp|]. rewrite cents_two_decimals, Hfee.
  unfold bracket_of_day. split; intros H.
  - apply Z.leb_le in H. rewrite H. exact H0.
  - destruct (d <=? 8) eqn:A; [apply Z.leb_le in A; lia|].
    destruct (d <=? 16) eqn:B; [apply Z.leb_le in B; lia|].
    destruct (d <=? 22) eqn:C; [apply Z.leb_le in C; lia|]. exact H3.
Qed.

Lemma one_month_first_payment_extremes_witness :
  exists a fp,
    Abonnement.create ILLIMITE_SEMAINE 1 (Date.mk 2024 5 8) = Ok a /\
    Abonnement.first_payment a = Ok fp /\
    Decimal.cents fp = 2 * Decimal.cents (Abonnement.monthly_fee a).
Proof.
  eexists.
  destruct (one_month_first_payment_extremes 2024 5 8 (Date.mk 2024 5 8)
              ILLIMITE_SEMAINE 1 0 false _ eq_refl eq_refl) as (fp & Hfp & H8 & _).
  exists fp. split; [reflexivity|]. split; [exact Hfp|]. apply H8. lia.
Defined.

Lemma TABLE_2_decreasing (f : Formula) (tp : TariffPlan) (i j : nat) :
  TABLE_2 !! f = Some tp -> (i <= j)%nat ->
  Decimal.cents (TariffPlan.bracket tp j) <= Decimal.cents (TariffPlan.bracket tp i).
Proof.
  intros H Hij. destruct i as [|i].
  - destruct j as [|j]; [lia|].
    rewrite (TABLE_2_from_ninth f tp (S j) H) by lia.
    apply (tables_bracket_bounds f tp 0%nat); [tauto | lia].
  - rewrite (TABLE_2_from_ninth f tp (S i) H), (TABLE_2_from_ninth f tp j H) by lia. lia.
Qed.

(** X7: under a 6- or 12-month commitment, a later start day never costs
    more: of two subscriptions to the same formula and duration, the one
    that starts on the later day of the month has the smaller or equal
    first payment and total cost. *)
Theorem later_start_never_costs_more
    (y1 m1 d1 y2 m2 d2 : Z) (sd1 sd2 : date) (f : Formula) (dur : Z)
    (ad1 ch1 ad2 ch2 : Z) (lp1 lp2 : bool) (a1 a2 : Abonnement) :
  dur = 6 \/ dur = 12 ->
  Date.new y1 m1 d1 = Ok sd1 ->
  Date.new y2 m2 d2 = Ok sd2 ->
  d1 <= d2 ->
  Abonnement.__init__ f dur sd1 ad1 ch1 lp1 = Ok a1 ->
  Abonnement.__init__ f dur sd2 ad2 ch2 lp2 = Ok a2 ->
  exists fp1 fp2 t1 t2,
    Abonnement.first_payment a1 = Ok fp1 /\
    Abonnement.first_payment a2 = Ok fp2 /\
    Abonnement.total_cost a1 = Ok t1 /\
    Abonnement.total_cost a2 = Ok t2 /\
    Decimal.cents fp2 <= Decimal.cents fp1 /\
    Decimal.cents t2 <= Decimal.cents t1.
Proof.
  intros Hdur Hd1 Hd2 Hle H1 H2.
  destruct (built_prices _ _ _ _ _ _ _ _ _ _ Hd1 H1)
    as (tp & [[? _]|[_ Htab]] & _ & _ & Hfp1 & Ht1); [lia|].
  destruct (built_prices _ _ _ _ _ _ _ _ _ _ Hd2 H2)
    as (tp' & [[? _]|[_ Htab']] & _ & _ & Hfp2 & Ht2); [lia|].
  assert (tp' = tp) as -> by congruence.
  do 4 eexists. split; [exact Hfp1|]. split; [exact Hfp2|].
  split; [exact Ht1|]. split; [exact Ht2|].
  rewrite !cents_two_decimals.
  pose proof (TABLE_2_decreasing f tp _ _ Htab (bracket_of_day_mono d1 d2 Hle)). lia.
Qed.

Lemma later_start_never_costs_more_witness :
  exists a1 a2 fp1 fp2,
    Abonnement.create ILLIMITE_26_PLUS 6 (Date.mk 2024 5 8) = Ok a1 /\
    Abonnement.create ILLIMITE_26_PLUS 6 (Date.mk 2024 6 9) = Ok a2 /\
    Abonnement.first_payment a1 = Ok fp1 /\
    Abonnement.first_payment a2 = Ok fp2 /\
    Decimal.cents fp2 <= Decimal.cents fp1.
Proof.
  eexists. eexists.
  destruct (later_start_never_costs_more 2024 5 8 2024 6 9 (Date.mk 2024 5 8)
              (Date.mk 2024 6 9) ILLIMITE_26_PLUS 6 1 0 1 0 false false _ _
              ltac:(lia) eq_refl eq_refl ltac:(lia) eq_refl eq_refl)
    as (fp1 & fp2 & t1 & t2 & H1 & H2 & _ & _ & Hle & _).
  exists fp1, fp2. split; [reflexivity|]. split; [reflexivity|].
  split; [exact H1|]. split; [exact H2 | exact Hle].
Defined.

(** Under one month the first payment is not monotone in the start day:
    Illimité 26+ pays 30.53 from the 16th and 30.60 from the 17th. *)
Lemma one_month_not_monotone :
  (let? a := Abonnement.create ILLIMITE_26_PLUS 1 (Date.mk 2024 5 16) in
   Abonnement.first_payment a) = Ok (dec 3053 (-2)) /\
  (let? a := Abonnement.create ILLIMITE_26_PLUS 1 (Date.mk 2024 5 17) in
   Abonnement.first_payment a) = Ok (dec 3060 (-2)).
Proof. split; reflexivity. Qed.

(** X8: the monthly fee depends on the formula only: two subscriptions to
    the same formula have the same monthly fee, whatever their durations,
    dates and households. *)
Theorem monthly_fee_of_formula
    (f : Formula) (d1 d2 : Z) (sd1 sd2 : date) (ad1 ch1 ad2 ch2 : Z) (lp1 lp2 : bool)
    (a1 a2 : Abonnement) :
  Abonnement.__init__ f d1 sd1 ad1 ch1 lp1 = Ok a1 ->
  Abonnement.__init__ f d2 sd2 ad2 ch2 lp2 = Ok a2 ->
  Abonnement.monthly_fee a1 = Abonnement.monthly_fee a2.
Proof.
  intros H1 H2.
  apply init_inv in H1 as (tp1 & R1 & -> & _).
  apply init_inv in H2 as (tp2 & R2 & -> & _).
  unfold Abonnement.monthly_fee. cbn [Abonnement._tariff].
  apply resolve_tariff_inv in R1, R2.
  destruct R1 as [[_ T1]|[_ T1]]; destruct R2 as [[_ T2]|[_ T2]].
  - congruence.
  - apply (tables_same_fee f); assumption.
  - symmetry. apply (tables_same_fee f); assumption.
  - congruence.
Qed.

Lemma monthly_fee_of_formula_witness :
  exists a1 a2,
    Abonnement.create ILLIMITE_2_PERS 1 (Date.mk 2024 5 10) = Ok a1 /\
    Abonnement.__init__ ILLIMITE_2_PERS 12 (Date.mk 2025 1 1) 2 0 false = Ok a2 /\
    Abonnement.monthly_fee a1 = Abonnement.monthly_fee a2.
Proof.
  eexists. eexists. split; [reflexivity|]. split; [reflexivity|].
  apply (monthly_fee_of_formula ILLIMITE_2_PERS 1 12 (Date.mk 2024 5 10)
           (Date.mk 2025 1 1) 1 0 2 0 false false); reflexivity.
Defined.

(** X9: the price depends on the start date through the bracket of its
    day only, and not on the household: two subscriptions to the same
    formula and duration whose start days fall in the same bracket have the
    same first payment and the same total cost, whatever the months, the
    years, the adults, the children and the livret flag. *)
Theorem price_depends_on_bracket_only
    (y1 m1 d1 y2 m2 d2 : Z) (sd1 sd2 : date) (f : Formula) (dur : Z)
    (ad1 ch1 ad2 ch2 : Z) (lp1 lp2 : bool) (a1 a2 : Abonnement) :
  Date.new y1 m1 d1 = Ok sd1 ->
  Date.new y2 m2 d2 = Ok sd2 ->
  bracket_of_day d1 = bracket_of_day d2 ->
  Abonnement.__init__ f dur sd1 ad1 ch1 lp1 = Ok a1 ->
  Abonnement.__init__ f dur sd2 ad2 ch2 lp2 = Ok a2 ->
  succeeds (Abonnement.first_payment a1) /\
  succeeds (Abonnement.total_cost a1) /\
  Abonnement.first_payment a1 = Abonnement.first_payment a2 /\
  Abonnement.total_cost a1 = Abonnement.total_cost a2.
Proof.
  intros Hd1 Hd2 Hb H1 H2.
  destruct (built_prices _ _ _ _ _ _ _ _ _ _ Hd1 H1) as (tp & Htab & _ & _ & Hfp1 & Ht1).
  destruct (built_prices _ _ _ _ _ _ _ _ _ _ Hd2 H2) as (tp' & Htab' & _ & _ & Hfp2 & Ht2).
  assert (tp' = tp) as -> by (eapply built_same_plan; eassumption).
  rewrite Hfp1, Hfp2, Ht1, Ht2, Hb.
  split; [eexists; reflexivity|]. split; [eexists; reflexivity|].
  split; reflexivity.
Qed.

Lemma price_depends_on_bracket_only_witness :
  exists a1 a2,
    Abonnement.__init__ FAMILLE 6 (Date.mk 2024 2 17) 2 2 true = Ok a1 /\
    Abonnement.__init__ FAMILLE 6 (Date.mk 2031 11 22) 1 0 true = Ok a2 /\
    Abonnement.total_cost a1 = Abonnement.total_cost a2.
Proof.
  eexists. eexists. split; [reflexivity|]. split; [reflexivity|].
  apply (price_depends_on_bracket_only 2024 2 17 2031 11 22 (Date.mk 2024 2 17)
           (Date.mk 2031 11 22) FAMILLE 6 2 2 1 0 true true); reflexivity.
Defined.

(** ** The constructor, case by case *)

Lemma init_with_plan (f : Formula) (d : Z) (sd : date) (ad ch : Z) (lp : bool)
    (tp : TariffPlan) :
  Abonnement._resolve_tariff f d = Ok tp ->
  Abonnement.__init__ f d sd ad ch lp =
  if bool_decide (f = FAMILLE) && negb ((ad <=? 2) && (ch <=? 2) && lp)
  then Raise (ValueError msg_family)
  else Ok (Abonnement.mk f d sd ad ch lp tp).
Proof.
  intros Hr. unfold Abonnement.__init__. rewrite Hr. cbn [bind].
  unfold Abonnement.validate_family.
  cbn [Abonnement.formula Abonnement.adults Abonnement.children
       Abonnement.livret_presented].
  destruct (bool_decide (f = FAMILLE)); reflexivity.
Qed.

(** X10: the constructor checks, in this order, the duration, the presence
    of the formula in the table of the duration, and the household of a
    Famille subscription; the first check that fails decides the message of
    the [ValueError]; when all pass the instance holds the arguments as
    given, start date included (which is not examined), and the plan of the
    table. *)
Theorem construction_outcome
    (f : Formula) (d : Z) (sd : date) (ad ch : Z) (lp : bool) :
  let supported := d = 1 \/ d = 6 \/ d = 12 in
  let table := if d =? 1 then TABLE_1 else TABLE_2 in
  let household := f = FAMILLE -> ad <= 2 /\ ch <= 2 /\ lp = true in
  (~ supported ->
   Abonnement.__init__ f d sd ad ch lp = Raise (ValueError msg_duration)) /\
  (supported -> table !! f = None ->
   Abonnement.__init__ f d sd ad ch lp = Raise (ValueError msg_formula)) /\
  (forall tp, supported -> table !! f = Some tp -> ~ household ->
   Abonnement.__init__ f d sd ad ch lp = Raise (ValueError msg_family)) /\
  (forall tp, supported -> table !! f = Some tp -> household ->
   Abonnement.__init__ f d sd ad ch lp = Ok (Abonnement.mk f d sd ad ch lp tp)).
Proof.
  intros supported table household.
  assert (Hres : supported ->
                 Abonnement._resolve_tariff f d =
                 match table !! f with
                 | Some plan => Ok plan
                 | None => Raise (ValueError msg_formula)
                 end).
  { subst table. intros [->|[->| ->]]; reflexivity. }
  assert (Hh : household <->
               bool_decide (f = FAMILLE) && negb ((ad <=? 2) && (ch <=? 2) && lp) = false).
  { subst household. destruct (bool_decide (f = FAMILLE)) eqn:F.
    - apply bool_decide_eq_true in F. cbn [andb].
      rewrite negb_false_iff, !andb_true_iff, !Z.leb_le. tauto.
    - apply bool_decide_eq_false in F. cbn [andb]. tauto. }
  split; [|split; [|split]].
  - intros Hn. apply init_resolve_raise. apply resolve_tariff_unsupported; subst supported; lia.
  - intros Hs Hnone. apply init_resolve_raise. rewrite (Hres Hs), Hnone. reflexivity.
  - intros tp Hs Hsome Hn. specialize (Hres Hs). rewrite Hsome in Hres.
    rewrite (init_with_plan _ _ _ _ _ _ _ Hres).
    destruct (bool_decide (f = FAMILLE) && negb ((ad <=? 2) && (ch <=? 2) && lp));
      [reflexivity|]. exfalso. apply Hn. apply Hh. reflexivity.
  - intros tp Hs Hsome Hy. specialize (Hres Hs). rewrite Hsome in Hres.
    rewrite (init_with_plan _ _ _ _ _ _ _ Hres).
    apply Hh in Hy. rewrite Hy. reflexivity.
Qed.

Lemma construction_outcome_witness :
  Abonnement.__init__ FAMILLE 3 (Date.mk 2024 1 5) 3 2 false
  = Raise (ValueError msg_duration) /\
  Abonnement.__init__ ILLIMITE_3D 1 (Date.mk 2024 1 5) 1 0 false
  = Raise (ValueError msg_formula) /\
  Abonnement.__init__ FAMILLE 6 (Date.mk 2024 1 5) 2 3 true
  = Raise (ValueError msg_family).
Proof.
  split; [|split].
  - apply (construction_outcome FAMILLE 3 (Date.mk 2024 1 5) 3 2 false). lia.
  - apply (construction_outcome ILLIMITE_3D 1 (Date.mk 2024 1 5) 1 0 false);
      [lia | reflexivity].
  - destruct (construction_outcome FAMILLE 6 (Date.mk 2024 1 5) 2 3 true)
      as (_ & _ & H & _).
    eapply H; [lia | reflexivity | intros Hh; specialize (Hh eq_refl); lia].
Defined.

(** ** The start day is checked on access *)



(** ** The formulas *)



(** ** Printed amounts *)

Lemma string_app_cons (c : ascii) (s t : string) :
  (String c s ++ t)%string = String c (s ++ t).
Proof. reflexivity. Qed.

Lemma string_app_nil (t : string) : (EmptyString ++ t)%string = t.
Proof. reflexivity. Qed.

Lemma string_length_app (s t : string) :
  String.length (s ++ t)%string = (String.length s + String.length t)%nat.
Proof.
  induction s as [|c s IH]; [reflexivity|].
  rewrite string_app_cons. cbn. rewrite IH. reflexivity.
Qed.

Lemma string_app_empty (s : string) : (s ++ EmptyString)%string = s.
Proof.
  induction s as [|c s IH]; [reflexivity|].
  rewrite string_app_cons, IH. reflexivity.
Qed.

Lemma length_zeros (n : nat) : String.length (zeros n) = n.
Proof. induction n as [|n IH]; cbn; [reflexivity | rewrite IH; reflexivity]. Qed.

Lemma length_substring (s : string) (n m : nat) :
  (n + m <= String.length s)%nat -> String.length (substring n m s) = m.
Proof.
  revert n m. induction s as [|c s IH]; intros n m H; cbn in H.
  - assert (n = 0%nat) by lia. assert (m = 0%nat) by lia. subst. reflexivity.
  - destruct n as [|n]; cbn.
    + destruct m as [|m]; cbn; [reflexivity|]. rewrite IH by lia. reflexivity.
    + apply IH. lia.
Qed.

(** Strings without a point. *)
Lemma fraction_digits_app (s t : string) :
  fraction_digits s = None -> fraction_digits (s ++ t)%string = fraction_digits t.
Proof.
  induction s as [|c s IH]; [reflexivity|].
  rewrite string_app_cons. cbn.
  destruct (Ascii.eqb c "."); [discriminate | exact IH].
Qed.

Lemma fraction_digits_substring (s : string) (n m : nat) :
  fraction_digits s = None -> fraction_digits (substring n m s) = None.
Proof.
  revert n m. induction s as [|c s IH]; intros n m H.
  - destruct n, m; reflexivity.
  - cbn in H. destruct (Ascii.eqb c ".") eqn:E; [discriminate|].
    destruct n as [|n]; cbn.
    + destruct m as [|m]; cbn; [reflexivity|]. rewrite E. apply IH. exact H.
    + apply IH. exact H.
Qed.

Lemma fraction_digits_uint (u : Decimal.uint) :
  fraction_digits (NilEmpty.string_of_uint u) = None.
Proof. induction u; cbn; assumption || reflexivity. Qed.

Lemma fraction_digits_digits (n : N) :
  fraction_digits (NilZero.string_of_uint (N.to_uint n)) = None.
Proof.
  unfold NilZero.string_of_uint.
  destruct (N.to_uint n) eqn:E; try reflexivity; rewrite <- E; apply fraction_digits_uint.
Qed.

Lemma length_digits_pos (n : N) :
  (1 <= String.length (NilZero.string_of_uint (N.to_uint n)))%nat.
Proof. destruct (N.to_uint n); cbn; lia. Qed.

(** A decimal of exponent -2 prints in plain notation with exactly two
    digits after the point. *)
Lemma to_string_two_decimals (x : Decimal) :
  Decimal.exponent x = -2 ->
  fraction_digits (Decimal.to_string x) = Some 2%nat.
Proof.
  intros He. unfold Decimal.to_string. rewrite He.
  set (int_ := NilZero.string_of_uint (N.to_uint (Z.abs_N (Decimal.coefficient x)))).
  pose proof (length_digits_pos (Z.abs_N (Decimal.coefficient x))) as Hlen.
  pose proof (fraction_digits_digits (Z.abs_N (Decimal.coefficient x))) as Hnd.
  fold int_ in Hlen, Hnd.
  set (len := Z.of_nat (String.length int_)).
  assert (Hl : 1 <= len) by (subst len; lia).
  cbv zeta.
  replace ((-2 <=? 0) && (-6 <? -2 + len)) with true
    by (symmetry; apply andb_true_iff; split; [reflexivity | apply Z.ltb_lt; lia]).
  rewrite Z.eqb_refl, string_app_empty.
  rewrite fraction_digits_app
    by (destruct (Decimal.coefficient x <? 0); reflexivity).
  destruct (-2 + len <=? 0) eqn:D.
  - apply Z.leb_le in D. rewrite !string_app_cons, string_app_nil. cbn. f_equal.
    rewrite string_length_app, length_zeros. subst len. lia.
  - apply Z.leb_gt in D.
    destruct (len <=? -2 + len) eqn:L; [apply Z.leb_le in L; lia|].
    rewrite fraction_digits_app by (apply fraction_digits_substring; exact Hnd).
    cbn. f_equal. rewrite length_substring; subst len; lia.
Qed.



(** X14: the summary of a subscription built on a valid date is returned,
    and in it the first payment shows two decimals; the monthly fee shows
    two decimals for every formula but CINE DAY, whose fee shows as [8]. *)
Theorem summary_amounts
    (y m d : Z) (sd : date) (f : Formula) (dur ad ch : Z) (lp : bool) (a : Abonnement) :
  Date.new y m d = Ok sd ->
  Abonnement.__init__ f dur sd ad ch lp = Ok a ->
  exists fp,
    Abonnement.first_payment a = Ok fp /\
    Abonnement.__str__ a
    = Ok ("Formule: " ++ Formula_value f ++ " | Durée: " ++ str_int dur ++ " mois | "
          ++ "Mensualité: " ++ Decimal.to_string (Abonnement.monthly_fee a)
          ++ "€ | 1er paiement: " ++ Decimal.to_string fp
          ++ "€ | " ++ "Début: " ++ Date.isoformat sd)%string /\
    fraction_digits (Decimal.to_string fp) = Some 2%nat /\
    (f <> CINE_DAY ->
     fraction_digits (Decimal.to_string (Abonnement.monthly_fee a)) = Some 2%nat) /\
    (f = CINE_DAY ->
     Decimal.to_string (Abonnement.monthly_fee a) = "8"%string).
Proof.
  intros Hd Ha.
  destruct (built_prices _ _ _ _ _ _ _ _ _ _ Hd Ha) as (tp & Htab & _ & Hfee & Hfp & _).
  destruct (built_plan _ _ _ _ _ _ _ Ha) as (_ & Hdur & Hsd & _).
  pose proof Ha as Hinv. apply init_inv in Hinv as (tp' & _ & Hmk & _).
  eexists. split; [exact Hfp|]. split; [|split; [|split]].
  - unfold Abonnement.__str__. rewrite Hfp, Hdur, Hsd. cbn [bind].
    rewrite Hmk at 1. reflexivity.
  - apply to_string_two_decimals. reflexivity.
  - intros Hf. apply to_string_two_decimals. rewrite Hfee.
    apply (stored_fee_two_decimals f). destruct Htab as [[_ T]|[_ T]]; tauto.
  - intros ->. rewrite Hfee.
    destruct Htab as [[_ T]|[_ T]]; vm_compute in T; [discriminate|].
    injection T as <-. reflexivity.
Qed.

Lemma summary_amounts_witness :
  exists a,
    Abonnement.create ILLIMITE_SEMAINE 1 (Date.mk 2024 5 10) = Ok a /\
    Abonnement.__str__ a
    = Ok "Formule: UGC Illimité Semaine | Durée: 1 mois | Mensualité: 19.90€ | 1er paiement: 27.46€ | Début: 2024-05-10"%string.
Proof.
  eexists. split; [reflexivity|].
  destruct (summary_amounts 2024 5 10 (Date.mk 2024 5 10) ILLIMITE_SEMAINE 1 1 0 false
              _ eq_refl eq_refl) as (fp & Hfp & Hs & _).
  rewrite Hs. injection Hfp as <-. reflexivity.
Defined.



Lemma total_cost_in_context_witness :
  exists a fp,
    Abonnement.create CINE_PLUS_CANAL 12 (Date.mk 2024 5 1) = Ok a /\
    Abonnement.first_payment a = Ok fp /\
    Decimal.in_context
      (Decimal.quantize_cents
         (Decimal.add fp (Decimal.mul_int (Abonnement.monthly_fee a) (Z.max (12 - 1) 0)))).
Proof.
  eexists. eexists. split; [reflexivity|]. split; [reflexivity|].
  apply (total_cost_in_context 2024 5 1 (Date.mk 2024 5 1) CINE_PLUS_CANAL 12 1 0 false);
    reflexivity.
Defined.
